(** * smol-course: the two fine-tuning notebooks as effectful programs

    The repository consists of two Jupyter notebooks
    - [src/unnamed/part_000] (LoRA fine-tuning with [SFTTrainer] and [peft]),
    - [src/1_instruction_tuning/notebooks/sft_finetuning_example_turtle.ipynb].

    Each code cell is embedded as a computation in a small state/exception
    monad [M].  The state holds the kernel's global namespace (a Python dict,
    here the list of its items in insertion order), the [wandb.config] slot,
    and the trace of everything the kernel did that is visible from outside
    the notebook's own code: imports, calls into library code, shell
    commands and lines printed.

    Library code is not part of the repository.  A library call is recorded in
    the trace and its result is the opaque reference [VRes n] to the [n]-th
    event; whatever the notebooks inspect of such a result (the answer of
    [torch.cuda.is_available()], the characters of a decoded generation) is
    supplied by a [World], over which the theorems quantify.  Library calls
    are assumed to return, and a run executes the code cells once, top to
    bottom, on a fresh kernel. *)

From Stdlib Require Import ZArith NArith Ascii String List.
From stdpp Require Import base list strings pretty.

Local Open Scope Z_scope.
Local Open Scope string_scope.
Local Open Scope list_scope.
Set Warnings "-register-all".

(** ** Python strings *)

(** A Python [str] is a sequence of Unicode code points. *)
Abbreviation pystr := (list N).

(** An ASCII literal of the source. *)
Definition lit (s : string) : pystr := N_of_ascii <$> list_ascii_of_string s.

(** The escapes [\n] and [\033] of the source's literals. *)
Definition NL : pystr := [10%N].
Definition ESC : pystr := [27%N].

(** [str.isspace] on one code point (CPython's [_PyUnicode_IsWhitespace]). *)
Definition isspace (c : N) : bool :=
  ((9 <=? c) && (c <=? 13) || (28 <=? c) && (c <=? 32)
   || (c =? 133) || (c =? 160) || (c =? 5760)
   || (8192 <=? c) && (c <=? 8202)
   || (c =? 8232) || (c =? 8233) || (c =? 8239) || (c =? 8287)
   || (c =? 12288))%N.

Fixpoint lstrip (s : pystr) : pystr :=
  match s with
  | c :: s' => if isspace c then lstrip s' else s
  | [] => []
  end.

Definition rstrip (s : pystr) : pystr := reverse (lstrip (reverse s)).

(** [s.strip()] *)
Definition strip (s : pystr) : pystr := lstrip (rstrip s).

(** [len(s)] *)
Definition py_len (s : pystr) : nat := length s.

(** [s[n:]] for [n >= 0]; past the end the slice is empty. *)
Definition slice_from (n : nat) (s : pystr) : pystr := drop n s.

(** [s * n] *)
Definition str_mul (s : pystr) (n : nat) : pystr := concat (replicate n s).

(** ** Values *)

Inductive Val : Type :=
| VNone
| VBool (b : bool)
| VInt (n : Z)
| VFloat (m e : Z)                 (* the decimal literal m * 10^e *)
| VStr (s : pystr)
| VList (xs : list Val)
| VDict (kvs : list (pystr * Val)) (* dict display, in source order *)
| VLib (module name : string)      (* an imported module, or a name imported from it *)
| VFun (name : string)             (* a function defined by the notebook *)
| VRes (n : nat)                   (* result of the n-th event of the run *)
| VItem (v k : Val)                (* v[k] on a library object *)
| VAttr (v : Val) (a : string).    (* v.a on a library object *)

(** Keyword arguments of a call, in source order.  The keyword ["**"]
    stands for an unpacked mapping ([**inputs]). *)
Abbreviation kwargs := (list (string * Val)).

Fixpoint kwarg (k : string) (kw : kwargs) : option Val :=
  match kw with
  | [] => None
  | (k', v) :: kw' => if String.eqb k k' then Some v else kwarg k kw'
  end.

Fixpoint dict_get (k : pystr) (d : list (pystr * Val)) : option Val :=
  match d with
  | [] => None
  | (k', v) :: d' => if bool_decide (k = k') then Some v else dict_get k d'
  end.

(** The kernel's global namespace: the items of the dict, in insertion
    order, one per name. *)
Abbreviation namespace := (list (string * Val)).

(** [ns[x]] *)
Fixpoint ns_get (x : string) (ns : namespace) : option Val :=
  match ns with
  | [] => None
  | (y, u) :: ns' => if String.eqb x y then Some u else ns_get x ns'
  end.

(** [ns[x] = v]: an existing item keeps its place. *)
Fixpoint ns_set (x : string) (v : Val) (ns : namespace) : namespace :=
  match ns with
  | [] => [(x, v)]
  | (y, u) :: ns' =>
      if String.eqb x y then (x, v) :: ns' else (y, u) :: ns_set x v ns'
  end.

(** [del ns[x]] *)
Fixpoint ns_del (x : string) (ns : namespace) : namespace :=
  match ns with
  | [] => []
  | (y, u) :: ns' => if String.eqb x y then ns' else (y, u) :: ns_del x ns'
  end.

(** Names bound in a namespace. *)
Definition names (ns : namespace) : list string := fst <$> ns.

(** ** Events, state, exceptions *)

Inductive Event : Type :=
| EImport (module : string) (names : list string)
| ECall (callee : Val) (args : list Val) (kw : kwargs)
| EPrint (s : pystr)
| EShell (cmd : string).           (* a [!cmd] line *)

Record State : Type := mkState {
  globals : namespace;
  wandb_config : option (list (pystr * Val));
  trace : list Event
}.

Definition fresh_kernel : State :=
  {| globals := []; wandb_config := None; trace := [] |}.

Inductive Exn : Type :=
| NameError (x : string)
| TypeError (what : string)
| KeyError (k : Val)
| IndexError
| AttributeError (a : string)
| WandbError.

Inductive Result (A : Type) : Type :=
| Ok (a : A)
| Raise (e : Exn).
Arguments Ok {A} a.
Arguments Raise {A} e.

Definition M (A : Type) : Type := State → State * Result A.

#[global] Instance M_ret : MRet M := λ A a st, (st, Ok a).
#[global] Instance M_bind : MBind M := λ A B f m st,
  match m st with
  | (st', Ok a) => f a st'
  | (st', Raise e) => (st', Raise e)
  end.

#[global] Instance M_fmap : FMap M := λ A B f m, a ← m; mret (f a).

Definition raise {A} (e : Exn) : M A := λ st, (st, Raise e).
Definition get_state : M State := λ st, (st, Ok st).

Definition emit (e : Event) : M nat := λ st,
  ({| globals := globals st; wandb_config := wandb_config st;
      trace := trace st ++ [e] |}, Ok (length (trace st))).

Definition set_global (x : string) (v : Val) : M unit := λ st,
  ({| globals := ns_set x v (globals st); wandb_config := wandb_config st;
      trace := trace st |}, Ok tt).

Definition set_wandb_config (c : option (list (pystr * Val))) : M unit := λ st,
  ({| globals := globals st; wandb_config := c; trace := trace st |}, Ok tt).

Fixpoint eval_list (es : list (M Val)) : M (list Val) :=
  match es with
  | [] => mret []
  | e :: es' => v ← e; vs ← eval_list es'; mret (v :: vs)
  end.

Fixpoint eval_kwargs (es : list (string * M Val)) : M kwargs :=
  match es with
  | [] => mret []
  | (k, e) :: es' => v ← e; vs ← eval_kwargs es'; mret ((k, v) :: vs)
  end.

Fixpoint eval_dict (es : list (string * M Val)) : M (list (pystr * Val)) :=
  match es with
  | [] => mret []
  | (k, e) :: es' => v ← e; vs ← eval_dict es'; mret ((lit k, v) :: vs)
  end.

(** Is [v] an object of library code (as opposed to a builtin value)? *)
Definition is_lib (v : Val) : bool :=
  match v with
  | VLib _ _ | VRes _ | VItem _ _ | VAttr _ _ => true
  | _ => false
  end.

(** ** Expressions *)

(** A global name. *)
Definition var (x : string) : M Val :=
  st ← get_state;
  match ns_get x (globals st) with
  | Some v => mret v
  | None => raise (NameError x)
  end.

Definition str (s : string) : M Val := mret (VStr (lit s)).
Definition chars (s : pystr) : M Val := mret (VStr s).
Definition int (n : Z) : M Val := mret (VInt n).
Definition flt (m e : Z) : M Val := mret (VFloat m e).
Definition bool_ (b : bool) : M Val := mret (VBool b).
Definition list_ (es : list (M Val)) : M Val := VList <$> eval_list es.
Definition dict_ (es : list (string * M Val)) : M Val := VDict <$> eval_dict es.

(** [e.a] *)
Definition attr (e : M Val) (a : string) : M Val :=
  v ← e;
  if is_lib v then mret (VAttr v a) else raise (AttributeError a).

(** [e[k]] *)
Definition item (e k : M Val) : M Val :=
  v ← e; i ← k;
  match v, i with
  | VList xs, VInt n =>
      match (if (0 <=? n)%Z then xs !! Z.to_nat n
             else if (0 <=? n + Z.of_nat (length xs))%Z
                  then xs !! Z.to_nat (n + Z.of_nat (length xs)) else None) with
      | Some x => mret x
      | None => raise IndexError
      end
  | VDict d, VStr s =>
      match dict_get s d with
      | Some x => mret x
      | None => raise (KeyError i)
      end
  | _, _ => if is_lib v then mret (VItem v i) else raise (TypeError "subscript")
  end.

(** [f(args, **kw)]: the callee, then the arguments left to right; the call
    is recorded and its result is a reference to the record. *)
Definition call (f : M Val) (args : list (M Val)) (kw : list (string * M Val)) : M Val :=
  c ← f; vs ← eval_list args; kvs ← eval_kwargs kw;
  if is_lib c then n ← emit (ECall c vs kvs); mret (VRes n)
  else raise (TypeError "not callable").

(** [wandb.init(project=.., config=.., mode=..)] additionally installs its [config] as [wandb.config]. *)
Definition wandb_init (kw : list (string * M Val)) : M Val :=
  c ← attr (var "wandb") "init"; kvs ← eval_kwargs kw;
  n ← emit (ECall c [] kvs);
  match kwarg "config" kvs with
  | Some (VDict d) => set_wandb_config (Some d)
  | _ => set_wandb_config (Some [])
  end;;
  mret (VRes n).

(** [wandb.finish()] ends the run and resets [wandb.config]. *)
Definition wandb_finish : M Val :=
  r ← call (attr (var "wandb") "finish") [] [];
  set_wandb_config None;;
  mret r.

(** [wandb.config.a] *)
Definition wandb_config_attr (a : string) : M Val :=
  _ ← var "wandb"; st ← get_state;
  match wandb_config st with
  | None => raise WandbError
  | Some d =>
      match dict_get (lit a) d with
      | Some v => mret v
      | None => raise (AttributeError a)
      end
  end.

(** ** Statements *)

Definition comment (text : string) : M unit := mret tt.

(** A [!cmd] line: IPython hands [cmd] to the system shell. *)
Definition shell (cmd : string) : M unit := emit (EShell cmd);; mret tt.
Definition expr (e : M Val) : M unit := e;; mret tt.
Definition assign (x : string) (e : M Val) : M unit := v ← e; set_global x v.

(** [x, y = e] for a pair returned by library code *)
Definition unpack2 (x y : string) (e : M Val) : M unit :=
  v ← e;
  if is_lib v then
    set_global x (VItem v (VInt 0));; set_global y (VItem v (VInt 1))
  else raise (TypeError "cannot unpack").

(** [del x] *)
Definition del (x : string) : M unit := λ st,
  match ns_get x (globals st) with
  | Some _ => ({| globals := ns_del x (globals st);
                  wandb_config := wandb_config st; trace := trace st |}, Ok tt)
  | None => (st, Raise (NameError x))
  end.

(** [import m] *)
Definition import_ (m : string) : M unit :=
  emit (EImport m []);; set_global m (VLib m "").

(** [from m import n1, n2, ...] *)
Definition from_import (m : string) (names : list string) : M unit :=
  emit (EImport m names);;
  (fix bind (ns : list string) : M unit :=
     match ns with
     | [] => mret tt
     | n :: ns' => set_global n (VLib m n);; bind ns'
     end) names.

(** [def f(...)]: binds the name; the body is the Rocq function of that name. *)
Definition def (f : string) : M unit := set_global f (VFun f).

(** [f(arg)] for a function defined by the notebook *)
Definition call_def (f : string) (body : Val → M Val) (arg : M Val) : M Val :=
  c ← var f; a ← arg;
  match c with
  | VFun g => if String.eqb f g then body a else raise (TypeError "not callable")
  | _ => raise (TypeError "not callable")
  end.

(** [for i, x in enumerate(xs, start): body] *)
Fixpoint for_items (i x : string) (start : Z) (xs : list Val) (body : M unit) : M unit :=
  match xs with
  | [] => mret tt
  | v :: xs' =>
      set_global i (VInt start);; set_global x v;; body;;
      for_items i x (start + 1) xs' body
  end.

Definition for_enumerate (i x : string) (e : M Val) (start : Z) (body : M unit) : M unit :=
  v ← e;
  match v with
  | VList xs => for_items i x start xs body
  | _ => raise (TypeError "not iterable")
  end.

Declare Scope py_scope.
Delimit Scope py_scope with py.
Notation "x ::= e" := (assign x e) (at level 55, no associativity) : py_scope.
Notation "e >. a" := (attr e a) (at level 10, left associativity, only parsing) : py_scope.
Local Open Scope py_scope.

(** ** The world outside the notebook *)

(** What library code answers when the notebook looks inside a library
    value: whether [torch] finds a CUDA or an MPS device, and the characters
    of a library value that the notebook uses as a [str] (a rendered chat
    template, a decoded generation). *)
Record World : Type := mkWorld {
  cuda_available : bool;
  mps_available : bool;
  text : Val → pystr
}.

(** [v] is the attribute path [m.a1.....an], given innermost attribute first. *)
Fixpoint is_attr_path (m : string) (rpath : list string) (v : Val) : bool :=
  match rpath, v with
  | [], VLib m' n => String.eqb m m' && String.eqb n ""
  | a :: rpath', VAttr v' a' => String.eqb a a' && is_attr_path m rpath' v'
  | _, _ => false
  end.

(** The answer of a library predicate called without arguments. *)
Definition library_bool (w : World) (callee : Val) : option bool :=
  if is_attr_path "torch" ["is_available"; "cuda"] callee
  then Some (cuda_available w)
  else if is_attr_path "torch" ["is_available"; "mps"; "backends"] callee
  then Some (mps_available w)
  else None.

Section Notebooks.

Variable w : World.

(** The value of [e] as a condition. *)
Definition truthy (e : M Val) : M bool :=
  v ← e; st ← get_state;
  match v with
  | VBool b => mret b
  | VRes n =>
      match trace st !! n with
      | Some (ECall c [] []) =>
          match library_bool w c with
          | Some b => mret b
          | None => raise (TypeError "condition")
          end
      | _ => raise (TypeError "condition")
      end
  | _ => raise (TypeError "condition")
  end.

(** [a if c else b] *)
Definition cond (c : M bool) (a b : M Val) : M Val :=
  c ≫= λ t : bool, if t then a else b.

(** The characters of a value used as a [str]. *)
Definition as_str (e : M Val) : M pystr :=
  v ← e;
  match v with
  | VStr s => mret s
  | _ => if is_lib v then mret (text w v) else raise (TypeError "str")
  end.

(** A library call whose result is a [str]. *)
Definition call_str (f : M Val) (args : list (M Val)) (kw : list (string * M Val)) : M Val :=
  VStr <$> as_str (call f args kw).

(** [e == "s"] *)
Definition eq_str (e : M Val) (s : string) : M bool :=
  v ← e;
  match v with
  | VStr t => mret (bool_decide (t = lit s))
  | _ => mret false
  end.

(** One replacement field or literal part of an f-string. *)
Definition fpart (e : M Val) : M pystr :=
  v ← e;
  match v with
  | VInt n => mret (lit (pretty n))
  | _ => as_str (mret v)
  end.

(** [f"..."] *)
Fixpoint fstr (parts : list (M Val)) : M pystr :=
  match parts with
  | [] => mret []
  | p :: ps => s ← fpart p; t ← fstr ps; mret (s ++ t)
  end.

Definition fstring (parts : list (M Val)) : M Val := VStr <$> fstr parts.

(** [a + b] on strings *)
Definition add_str (a b : M Val) : M Val :=
  s ← as_str a; t ← as_str b; mret (VStr (s ++ t)).

(** [a * n] on a string *)
Definition mul_str (a : M Val) (n : nat) : M Val :=
  s ← as_str a; mret (VStr (str_mul s n)).

(** [print(e)] *)
Definition print (e : M Val) : M unit :=
  s ← as_str e; emit (EPrint s);; mret tt.

(** The device selection shared by both notebooks:
<<
device = (
    "cuda"
    if torch.cuda.is_available()
    else "mps" if torch.backends.mps.is_available() else "cpu"
)
>> *)
Definition select_device : M Val :=
  cond (truthy (call (var "torch" >. "cuda" >. "is_available") [] []))
       (str "cuda")
       (cond (truthy (call (var "torch" >. "backends" >. "mps" >. "is_available") [] []))
             (str "mps")
             (str "cpu")).

(** ** Cells shared by both notebooks *)

(**
<<
# Install the requirements in Google Colab
# !pip install transformers datasets trl huggingface_hub

# Authenticate to Hugging Face

from huggingface_hub import login

login()
>> *)
Definition cell_install_login : M unit :=
  comment "Install the requirements in Google Colab";;
  comment "!pip install transformers datasets trl huggingface_hub";;
  comment "Authenticate to Hugging Face";;
  from_import "huggingface_hub" ["login"];;
  expr (call (var "login") [] []).

(** Imports, device, model and tokenizer; the notebooks differ in
    [finetune_name] only. *)
Definition cell_setup (finetune_name : string) : M unit :=
  from_import "transformers" ["AutoModelForCausalLM"; "AutoTokenizer"];;
  from_import "datasets" ["load_dataset"];;
  from_import "trl" ["SFTConfig"; "SFTTrainer"; "setup_chat_format"];;
  import_ "torch";;
  "device" ::= select_device;;
  "model_name" ::= str "HuggingFaceTB/SmolLM2-135M";;
  "model" ::=
    call (call (var "AutoModelForCausalLM" >. "from_pretrained") []
               [("pretrained_model_name_or_path", var "model_name")] >. "to")
         [var "device"] [];;
  "tokenizer" ::=
    call (var "AutoTokenizer" >. "from_pretrained") []
         [("pretrained_model_name_or_path", var "model_name")];;
  unpack2 "model" "tokenizer"
    (call (var "setup_chat_format") []
          [("model", var "model"); ("tokenizer", var "tokenizer")]);;
  "finetune_name" ::= str finetune_name;;
  "finetune_tags" ::= list_ [str "smol-course"; str "module_1"].

(** Prompt, chat template, [model.generate], and the two [print]s; the
    notebooks differ in the label printed. *)
Definition cell_generate (label : string) : M unit :=
  "prompt" ::= str "Write a haiku about programming";;
  "messages" ::= list_ [dict_ [("role", str "user"); ("content", var "prompt")]];;
  "formatted_prompt" ::=
    call_str (var "tokenizer" >. "apply_chat_template") [var "messages"]
             [("tokenize", bool_ false)];;
  "inputs" ::=
    call (call (var "tokenizer") [var "formatted_prompt"]
               [("return_tensors", str "pt")] >. "to")
         [var "device"] [];;
  "outputs" ::=
    call (var "model" >. "generate") []
         [("**", var "inputs"); ("max_new_tokens", int 100)];;
  print (str label);;
  print (call_str (var "tokenizer" >. "decode") [item (var "outputs") (int 0)]
                  [("skip_special_tokens", bool_ true)]).

(**
<<
from IPython.display import display, HTML
display(HTML("<h2>Kernel will shut down...</h2>"))

import IPython
app = IPython.Application.instance()
app.kernel.do_shutdown(True)
>> *)
Definition cell_shutdown : M unit :=
  from_import "IPython.display" ["display"; "HTML"];;
  expr (call (var "display")
             [call (var "HTML") [str "<h2>Kernel will shut down...</h2>"] []] []);;
  import_ "IPython";;
  "app" ::= call (var "IPython" >. "Application" >. "instance") [] [];;
  expr (call (var "app" >. "kernel" >. "do_shutdown") [bool_ true] []).

(** Running the code cells of a notebook top to bottom on a fresh kernel;
    a cell that raises stops the run. *)
Fixpoint run_cells (cells : list (M unit)) : M unit :=
  match cells with
  | [] => mret tt
  | c :: cs => c;; run_cells cs
  end.

Definition run (cells : list (M unit)) : State * Result unit :=
  run_cells cells fresh_kernel.

(** ** The LoRA notebook, [src/unnamed/part_000] *)

(**
<<
from datasets import load_dataset
dataset = load_dataset(path="HuggingFaceTB/smoltalk", name="everyday-conversations")
dataset
>> *)
Definition lora_cell_dataset : M unit :=
  from_import "datasets" ["load_dataset"];;
  "dataset" ::=
    call (var "load_dataset") []
         [("path", str "HuggingFaceTB/smoltalk");
          ("name", str "everyday-conversations")];;
  expr (var "dataset").

(** The cell that starts the [wandb] run and builds the [LoraConfig].  The
    three values assigned to the local names [rank_dimension], [lora_alpha]
    and [lora_dropout] are parameters here; the source assigns [6], [8] and
    [0.05] (see [lora_cell_peft_config]). *)
Definition lora_cell_peft_config_with (rank_dimension lora_alpha lora_dropout : Val) : M unit :=
  from_import "peft" ["LoraConfig"];;
  import_ "wandb";;
  expr (wandb_init
          [("project", str "smoltalk-lora-tuning");
           ("config", dict_ [("rank_dimension", int 16);
                             ("lora_alpha", int 32);
                             ("lora_dropout", flt 1 (-1));
                             ("learning_rate", flt 2 (-4));
                             ("num_train_epochs", int 3)]);
           ("mode", str "offline")]);;
  "rank_dimension" ::= mret rank_dimension;;
  "lora_alpha" ::= mret lora_alpha;;
  "lora_dropout" ::= mret lora_dropout;;
  "peft_config" ::=
    call (var "LoraConfig") []
         [("r", wandb_config_attr "rank_dimension");
          ("lora_alpha", wandb_config_attr "lora_alpha");
          ("lora_dropout", wandb_config_attr "lora_dropout");
          ("bias", str "none");
          ("target_modules", str "all-linear");
          ("task_type", str "CAUSAL_LM")].

Definition lora_cell_peft_config : M unit :=
  lora_cell_peft_config_with (VInt 6) (VInt 8) (VFloat 5 (-2)).

Definition lora_cell_args : M unit :=
  "args" ::=
    call (var "SFTConfig") []
         [("output_dir", var "finetune_name");
          ("num_train_epochs", int 2);
          ("per_device_train_batch_size", int 2);
          ("gradient_accumulation_steps", int 2);
          ("gradient_checkpointing", bool_ true);
          ("optim", str "adamw_torch_fused");
          ("learning_rate", flt 2 (-4));
          ("max_grad_norm", flt 3 (-1));
          ("warmup_ratio", flt 3 (-2));
          ("lr_scheduler_type", str "constant");
          ("logging_steps", int 10);
          ("save_strategy", str "epoch");
          ("bf16", bool_ true);
          ("push_to_hub", bool_ false);
          ("report_to", str "wandb")].

Definition lora_cell_trainer : M unit :=
  "max_seq_length" ::= int 1512;;
  "trainer" ::=
    call (var "SFTTrainer") []
         [("model", var "model");
          ("args", var "args");
          ("train_dataset", item (var "dataset") (str "train"));
          ("peft_config", var "peft_config");
          ("max_seq_length", var "max_seq_length");
          ("tokenizer", var "tokenizer");
          ("packing", bool_ true);
          ("dataset_kwargs", dict_ [("add_special_tokens", bool_ false);
                                    ("append_concat_token", bool_ false)])].

(**
<<
trainer.train()
trainer.save_model()
wandb.finish()
>> *)
Definition lora_cell_train : M unit :=
  expr (call (var "trainer" >. "train") [] []);;
  expr (call (var "trainer" >. "save_model") [] []);;
  expr wandb_finish.

(**
<<
from peft import AutoPeftModelForCausalLM
model = AutoPeftModelForCausalLM.from_pretrained(
    pretrained_model_name_or_path=args.output_dir,
    torch_dtype=torch.float16,
    low_cpu_mem_usage=True,
)
merged_model = model.merge_and_unload()
merged_model.save_pretrained(
    args.output_dir, safe_serialization=True, max_shard_size="2GB"
)
>> *)
Definition lora_cell_merge : M unit :=
  from_import "peft" ["AutoPeftModelForCausalLM"];;
  "model" ::=
    call (var "AutoPeftModelForCausalLM" >. "from_pretrained") []
         [("pretrained_model_name_or_path", var "args" >. "output_dir");
          ("torch_dtype", var "torch" >. "float16");
          ("low_cpu_mem_usage", bool_ true)];;
  "merged_model" ::= call (var "model" >. "merge_and_unload") [] [];;
  expr (call (var "merged_model" >. "save_pretrained")
             [var "args" >. "output_dir"]
             [("safe_serialization", bool_ true); ("max_shard_size", str "2GB")]).

(**
<<
del model
del trainer
torch.cuda.empty_cache()
>> *)
Definition lora_cell_free : M unit :=
  del "model";;
  del "trainer";;
  expr (call (var "torch" >. "cuda" >. "empty_cache") [] []).

Definition lora_cell_pipeline : M unit :=
  import_ "torch";;
  from_import "peft" ["AutoPeftModelForCausalLM"];;
  from_import "transformers" ["AutoTokenizer"; "pipeline"];;
  "tokenizer" ::=
    call (var "AutoTokenizer" >. "from_pretrained") [var "finetune_name"] [];;
  "model" ::=
    call (var "AutoPeftModelForCausalLM" >. "from_pretrained") [var "finetune_name"]
         [("device_map", str "auto"); ("torch_dtype", var "torch" >. "float16")];;
  "pipe" ::=
    call (var "pipeline") [str "text-generation"]
         [("model", var "merged_model"); ("tokenizer", var "tokenizer");
          ("device", var "device")].

(**
<<
def test_inference(prompt):
    prompt = pipe.tokenizer.apply_chat_template(
        [{"role": "user", "content": prompt}],
        tokenize=False,
        add_generation_prompt=True,
    )
    outputs = pipe(
        prompt,
    )
    return outputs[0]["generated_text"][len(prompt) :].strip()
>> *)
Definition test_inference (prompt : Val) : M Val :=
  prompt ← call_str (var "pipe" >. "tokenizer" >. "apply_chat_template")
                    [list_ [dict_ [("role", str "user"); ("content", mret prompt)]]]
                    [("tokenize", bool_ false); ("add_generation_prompt", bool_ true)];
  outputs ← call (var "pipe") [mret prompt] [];
  generated_text ← as_str (item (item (mret outputs) (int 0)) (str "generated_text"));
  formatted ← as_str (mret prompt);
  mret (VStr (strip (slice_from (py_len formatted) generated_text))).

Definition prompts : list string :=
  ["What is the capital of Germany? Explain why thats the case and if it was different in the past?";
   "Write a Python function to calculate the factorial of a number.";
   "A rectangular garden has a length of 25 feet and a width of 15 feet. If you want to build a fence around the entire garden, how many feet of fencing will you need?";
   "What is the difference between a fruit and a vegetable? Give examples of each.";
   "Write a haiku about programming"].

(** The body of the loop over [enumerate(prompts, 1)]. *)
Definition lora_loop_body : M unit :=
  print (fstring [chars NL; chars ESC; str "[1mPrompt #"; var "i"; str ":";
                  chars ESC; str "[0m"]);;
  print (fstring [chars ESC; str "[94m"; var "prompt"; chars ESC; str "[0m"]);;
  print (chars (NL ++ ESC ++ lit "[1mResponse:" ++ ESC ++ lit "[0m"));;
  "response" ::= call_def "test_inference" test_inference (var "prompt");;
  print (fstring [chars ESC; str "[92m"; var "response"; chars ESC; str "[0m"]);;
  print (add_str (chars NL) (mul_str (str "=") 80)).

Definition lora_cell_inference : M unit :=
  "prompts" ::= list_ (str <$> prompts);;
  def "test_inference";;
  for_enumerate "i" "prompt" (var "prompts") 1 lora_loop_body.

Definition lora_notebook_with (rank_dimension lora_alpha lora_dropout : Val) : list (M unit) :=
  [ cell_install_login;
    lora_cell_dataset;
    cell_setup "SmolLM2-FT-MyDataset";
    cell_generate "Before training:";
    lora_cell_peft_config_with rank_dimension lora_alpha lora_dropout;
    lora_cell_args;
    lora_cell_trainer;
    lora_cell_train;
    lora_cell_merge;
    lora_cell_free;
    lora_cell_pipeline;
    lora_cell_inference;
    cell_shutdown ].

Definition lora_notebook : list (M unit) :=
  lora_notebook_with (VInt 6) (VInt 8) (VFloat 5 (-2)).

(** ** The turtle notebook, [sft_finetuning_example_turtle.ipynb] *)

(**
<<
from datasets import load_dataset
ds = load_dataset(path="HuggingFaceTB/smoltalk", name="everyday-conversations")
>> *)
Definition turtle_cell_dataset : M unit :=
  from_import "datasets" ["load_dataset"];;
  "ds" ::=
    call (var "load_dataset") []
         [("path", str "HuggingFaceTB/smoltalk");
          ("name", str "everyday-conversations")].

(** A code cell that holds a TODO comment only. *)
Definition turtle_cell_todo : M unit :=
  comment "TODO: If your dataset is not in a format that TRL can convert to the chat template, you will need to process it.".

Definition turtle_cell_trainer : M unit :=
  "sft_config" ::=
    call (var "SFTConfig") []
         [("output_dir", str "./sft_output");
          ("max_steps", int 1000);
          ("per_device_train_batch_size", int 4);
          ("learning_rate", flt 5 (-5));
          ("logging_steps", int 10);
          ("save_steps", int 100);
          ("eval_steps", int 50);
          ("use_mps_device", cond (eq_str (var "device") "mps") (bool_ true) (bool_ false));
          ("hub_model_id", var "finetune_name")];;
  "trainer" ::=
    call (var "SFTTrainer") []
         [("model", var "model");
          ("args", var "sft_config");
          ("train_dataset", item (var "ds") (str "train"));
          ("tokenizer", var "tokenizer");
          ("eval_dataset", item (var "ds") (str "test"))].

(**
<<
trainer.train()
trainer.save_model(f"./{finetune_name}")
>> *)
Definition turtle_cell_train : M unit :=
  expr (call (var "trainer" >. "train") [] []);;
  expr (call (var "trainer" >. "save_model")
             [fstring [str "./"; var "finetune_name"]] []).

(**
<<
trainer.push_to_hub(tags=finetune_tags)
>> *)
Definition turtle_cell_push : M unit :=
  expr (call (var "trainer" >. "push_to_hub") [] [("tags", var "finetune_tags")]).

Definition sft_finetuning_example_turtle : list (M unit) :=
  [ cell_install_login;
    cell_setup "SmolLM2-FT-Smoltalk";
    cell_generate "Before training:";
    turtle_cell_dataset;
    turtle_cell_todo;
    turtle_cell_trainer;
    turtle_cell_train;
    turtle_cell_push;
    cell_generate "After training:";
    cell_shutdown ].

End Notebooks.

(** ** Concrete worlds *)

(** A CPU-only machine whose library texts are all [...]. *)
Definition quiet_world : World :=
  {| cuda_available := false; mps_available := false; text := λ _, lit "..." |}.

(** A world with an MPS device whose tokenizer renders every chat as
    [<user>hi] and whose model answers by repeating the prompt and adding
    [  hello ]. *)
Definition echo_world : World :=
  {| cuda_available := false;
     mps_available := true;
     text := λ v, match v with
                  | VRes _ => lit "<user>hi"
                  | _ => lit "<user>hi  hello "
                  end |}.

(** The kernel of the LoRA notebook in [echo_world] once the cell that
    builds [pipe] has run, before the cell that defines and calls
    [test_inference]. *)
Definition before_inference : State :=
  fst (run_cells (take 11 (lora_notebook echo_world)) fresh_kernel).

(** ** Observing a run *)

Abbreviation notebook := (World → list (M unit)).

Definition events (nb : notebook) (w : World) : list Event := trace (fst (run (nb w))).
Definition outcome (nb : notebook) (w : World) : Result unit := snd (run (nb w)).
Definition final_global (nb : notebook) (w : World) (x : string) : option Val :=
  ns_get x (globals (fst (run (nb w)))).

Definition calls_name (m n : string) (e : Event) : bool :=
  match e with
  | ECall (VLib m' n') _ _ => String.eqb m m' && String.eqb n n'
  | _ => false
  end.

Definition calls_method (a : string) (e : Event) : bool :=
  match e with
  | ECall (VAttr _ a') _ _ => String.eqb a a'
  | _ => false
  end.

Definition kwargs_of (e : Event) : kwargs :=
  match e with
  | ECall _ _ kw => kw
  | _ => []
  end.

Definition is_shell (e : Event) : bool :=
  match e with
  | EShell _ => true
  | _ => false
  end.

(** The keyword arguments of the [LoraConfig(...)] call that produced [v]. *)
Definition lora_config_of (tr : list Event) (v : Val) : option kwargs :=
  match v with
  | VRes n =>
      match tr !! n with
      | Some e => if calls_name "peft" "LoraConfig" e then Some (kwargs_of e) else None
      | None => None
      end
  | _ => None
  end.

(** The [LoraConfig] an event passes as [peft_config], if any. *)
Definition peft_config_of (tr : list Event) (e : Event) : option kwargs :=
  kwarg "peft_config" (kwargs_of e) ≫= lora_config_of tr.

Definition trainers (tr : list Event) : list Event :=
  filter (λ e, calls_name "trl" "SFTTrainer" e = true) tr.

(** Every [SFTTrainer(...)] of the run is given a [LoraConfig] as [peft_config]. *)
Definition every_trainer_has_lora (tr : list Event) : bool :=
  forallb (λ e, bool_decide (is_Some (peft_config_of tr e))) (trainers tr).

(** The packages the commented [pip install] line names. *)
Definition requirements : list string :=
  ["transformers"; "datasets"; "trl"; "huggingface_hub"].

Definition imports_requirement (e : Event) : bool :=
  match e with
  | EImport m _ => bool_decide (m ∈ requirements)
  | _ => false
  end.

(** Some shell command runs before the first import of a required package. *)
Fixpoint installs_before_import (tr : list Event) : bool :=
  match tr with
  | [] => false
  | e :: tr' =>
      if is_shell e then true
      else if imports_requirement e then false
      else installs_before_import tr'
  end.

(** What an event amounts to, seen from outside the kernel. *)
Inductive Effect : Type :=
| Sequencing        (* an import or a call into library code *)
| Configuration     (* building a configuration object *)
| ConsoleOutput     (* a printed line *)
| ShellCommand
| HubUpload         (* [push_to_hub] *)
| KernelShutdown.   (* [do_shutdown] *)

#[global] Instance Effect_eq_dec : EqDecision Effect.
Proof. solve_decision. Defined.

Definition classify (e : Event) : Effect :=
  match e with
  | EImport _ _ => Sequencing
  | EPrint _ => ConsoleOutput
  | EShell _ => ShellCommand
  | ECall _ _ _ =>
      if calls_method "push_to_hub" e then HubUpload
      else if calls_method "do_shutdown" e then KernelShutdown
      else if calls_name "peft" "LoraConfig" e || calls_name "trl" "SFTConfig" e
              || calls_method "init" e
           then Configuration
      else Sequencing
  end.

(** The three kinds of operation the specification lists. *)
Definition glue_only (tr : list Event) : bool :=
  forallb (λ e, bool_decide (classify e ∈ [Sequencing; Configuration; ConsoleOutput])) tr.

Definition uploads (tr : list Event) : list Event :=
  filter (λ e, classify e = HubUpload) tr.
Definition shutdowns (tr : list Event) : list Event :=
  filter (λ e, classify e = KernelShutdown) tr.

(** The operation an event performs: [import], [print], a shell command,
    the library name called, the method called, or [()] for calling a
    library object itself (as in [tokenizer(...)] and [pipe(...)]). *)
Definition operation (e : Event) : string :=
  match e with
  | EImport _ _ => "import"
  | EPrint _ => "print"
  | EShell _ => "!"
  | ECall (VLib _ n) _ _ => n
  | ECall (VAttr _ a) _ _ => a
  | ECall _ _ _ => "()"
  end.

(** The distinct operations of a run with their kinds, in the order in
    which each is first performed. *)
Definition inventory (tr : list Event) : list (string * Effect) :=
  reverse (remove_dups (reverse ((λ e, (operation e, classify e)) <$> tr))).

(** Positions of the events that satisfy [p]. *)
Definition positions (p : Event → bool) (tr : list Event) : list nat :=
  omap (λ ie, if p ie.2 then Some ie.1 else None) (imap pair tr).

(** The objects on which method [a] is called, in order. *)
Definition method_receivers (a : string) (tr : list Event) : list Val :=
  omap (λ e, match e with
             | ECall (VAttr v a') _ _ => if String.eqb a a' then Some v else None
             | _ => None
             end) tr.

(** Method names among [names] in the order they are called. *)
Definition method_calls (names : list string) (tr : list Event) : list string :=
  omap (λ e, match e with
             | ECall (VAttr _ a) _ _ => if bool_decide (a ∈ names) then Some a else None
             | _ => None
             end) tr.

Definition args_of (e : Event) : list Val :=
  match e with
  | ECall _ args _ => args
  | _ => []
  end.

(** The keyword arguments of the [SFTConfig(...)] call that produced [v]. *)
Definition sft_config_of (tr : list Event) (v : Val) : option kwargs :=
  match v with
  | VRes n =>
      match tr !! n with
      | Some e => if calls_name "trl" "SFTConfig" e then Some (kwargs_of e) else None
      | None => None
      end
  | _ => None
  end.

(** The [SFTConfig] an event passes as [args], if any. *)
Definition trainer_args_of (tr : list Event) (e : Event) : option kwargs :=
  kwarg "args" (kwargs_of e) ≫= sft_config_of tr.

(** The device the specification prescribes. *)
Definition spec_device (w : World) : string :=
  if cuda_available w then "cuda"
  else if mps_available w then "mps"
  else "cpu".

(** Views of the event at a position. *)
Definition callee_at (tr : list Event) (i : nat) : option Val :=
  tr !! i ≫= λ e, match e with ECall c _ _ => Some c | _ => None end.
Definition args_at (tr : list Event) (i : nat) : option (list Val) :=
  tr !! i ≫= λ e, match e with ECall _ args _ => Some args | _ => None end.
Definition kwarg_at (tr : list Event) (i : nat) (k : string) : option Val :=
  tr !! i ≫= λ e, match e with ECall _ _ kw => kwarg k kw | _ => None end.
Definition printed_at (tr : list Event) (i : nat) : option pystr :=
  tr !! i ≫= λ e, match e with EPrint s => Some s | _ => None end.
Definition method_at (tr : list Event) (i : nat) : option string :=
  tr !! i ≫= λ e, match e with ECall (VAttr _ a) _ _ => Some a | _ => None end.

Section Samples.

Variable w : World.
Variable tr : list Event.

(** Event [g] is [model.generate(...)], event [d] decodes the first sequence
    it returned, and event [j] prints the decoded text. *)
Definition prints_generation (model : Val) (g d j : nat) : Prop :=
  callee_at tr g = Some (VAttr model "generate")
  ∧ method_at tr d = Some "decode"
  ∧ args_at tr d = Some [VItem (VRes g) (VInt 0)]
  ∧ printed_at tr j = Some (text w (VRes d))
  ∧ (g < d < j)%nat.

(** Event [g] is the call [pipe(fp)] of the text-generation pipeline made at
    event [k], and event [j] prints (in green) what [test_inference] cut
    out of its [generated_text]. *)
Definition prints_response (k : nat) (fp : pystr) (g j : nat) : Prop :=
  callee_at tr k = Some (VLib "transformers" "pipeline")
  ∧ callee_at tr g = Some (VRes k)
  ∧ args_at tr g = Some [VStr fp]
  ∧ printed_at tr j
    = Some (ESC ++ lit "[92m"
            ++ strip (slice_from (py_len fp)
                        (text w (VItem (VItem (VRes g) (VInt 0))
                                       (VStr (lit "generated_text")))))
            ++ ESC ++ lit "[0m")
  ∧ (g < j)%nat.

(** [v] is the model loaded from checkpoint [name] by
    [AutoModelForCausalLM.from_pretrained], possibly moved to a device and
    given the chat format. *)
Inductive loaded_from (name : pystr) : Val → Prop :=
| loaded_pretrained (n : nat) :
    callee_at tr n
    = Some (VAttr (VLib "transformers" "AutoModelForCausalLM") "from_pretrained") →
    kwarg_at tr n "pretrained_model_name_or_path" = Some (VStr name) →
    loaded_from name (VRes n)
| loaded_to (n : nat) (m : Val) :
    callee_at tr n = Some (VAttr m "to") →
    loaded_from name m →
    loaded_from name (VRes n)
| loaded_chat_format (n : nat) (m : Val) :
    callee_at tr n = Some (VLib "trl" "setup_chat_format") →
    kwarg_at tr n "model" = Some m →
    loaded_from name m →
    loaded_from name (VItem (VRes n) (VInt 0)).

(** [v] is split [split] of the dataset [load_dataset(path, name)]. *)
Inductive split_of (path name split : pystr) : Val → Prop :=
| split_of_loaded (n : nat) :
    callee_at tr n = Some (VLib "datasets" "load_dataset") →
    kwarg_at tr n "path" = Some (VStr path) →
    kwarg_at tr n "name" = Some (VStr name) →
    split_of path name split (VItem (VRes n) (VStr split)).

(** A generation of the model loaded from checkpoint [base], made before
    any trainer exists and before any [train] call, is printed under the
    label [Before training:]; that model is then given to the one trainer
    of the run, whose [train()] (event [t]) is the only [train] call of the
    run; and some generation is made and printed after that call. *)
Definition samples_around_training (base : pystr) : Prop :=
  ∃ (model : Val) (g0 l d0 j0 c t : nat),
    prints_generation model g0 d0 j0
    ∧ loaded_from base model
    ∧ printed_at tr l = Some (lit "Before training:") ∧ (g0 < l < j0)%nat
    ∧ positions (calls_name "trl" "SFTTrainer") tr = [c]
    ∧ kwarg_at tr c "model" = Some model
    ∧ callee_at tr t = Some (VAttr (VRes c) "train")
    ∧ positions (calls_method "train") tr = [t]
    ∧ (j0 < c < t)%nat
    ∧ ∃ g1 j1 : nat,
        (t < g1)%nat
        ∧ ((∃ m d1, prints_generation m g1 d1 j1)
           ∨ (∃ k fp, prints_response k fp g1 j1)).


(** The one trainer of the run fine-tunes checkpoint [model_name] on split
    [split] of [load_dataset(path, name)], and it is the trainer on which
    [train] is called. *)
Definition trains (model_name path name split : pystr) : Prop :=
  ∃ (c : nat) (m d : Val),
    positions (calls_name "trl" "SFTTrainer") tr = [c]
    ∧ method_receivers "train" tr = [VRes c]
    ∧ kwarg_at tr c "model" = Some m
    ∧ loaded_from model_name m
    ∧ kwarg_at tr c "train_dataset" = Some d
    ∧ split_of path name split d.

End Samples.

(** ** Beyond the claims: further observations *)

(** The two library predicates the device selection calls. *)
Definition torch_cuda_is_available : Val :=
  VAttr (VAttr (VLib "torch" "") "cuda") "is_available".
Definition torch_mps_is_available : Val :=
  VAttr (VAttr (VAttr (VLib "torch" "") "backends") "mps") "is_available".

(** The response [test_inference] returns when the chat template is
    rendered by event [n + 3] and the pipeline called by event [n + 4]. *)
Definition response_of (w : World) (n : nat) : pystr :=
  strip (slice_from (py_len (text w (VRes (n + 3))))
           (text w (VItem (VItem (VRes (n + 4)) (VInt 0))
                          (VStr (lit "generated_text"))))).

(** The events of one iteration of the inference loop that starts at
    position [n] of the trace, for prompt number [k] with text [p]. *)
Definition iteration_events (w : World) (pipe : Val) (n : nat) (k : Z) (p : pystr) : list Event :=
  [ EPrint (NL ++ ESC ++ lit "[1mPrompt #" ++ lit (pretty k) ++ lit ":" ++ ESC ++ lit "[0m");
    EPrint (ESC ++ lit "[94m" ++ p ++ ESC ++ lit "[0m");
    EPrint (NL ++ ESC ++ lit "[1mResponse:" ++ ESC ++ lit "[0m");
    ECall (VAttr (VAttr pipe "tokenizer") "apply_chat_template")
          [VList [VDict [(lit "role", VStr (lit "user")); (lit "content", VStr p)]]]
          [("tokenize", VBool false); ("add_generation_prompt", VBool true)];
    ECall pipe [VStr (text w (VRes (n + 3)))] [];
    EPrint (ESC ++ lit "[92m" ++ response_of w n ++ ESC ++ lit "[0m");
    EPrint (NL ++ str_mul (lit "=") 80) ].

Fixpoint loop_events (w : World) (pipe : Val) (n : nat) (k : Z) (ps : list pystr) : list Event :=
  match ps with
  | [] => []
  | p :: ps' => iteration_events w pipe n k p ++ loop_events w pipe (n + 7) (k + 1) ps'
  end.

Definition is_print (e : Event) : bool :=
  match e with
  | EPrint _ => true
  | _ => false
  end.

Definition is_call (e : Event) : bool :=
  match e with
  | ECall _ _ _ => true
  | _ => false
  end.

(** Does [v] contain a reference to the result of event [n]? *)
Fixpoint refers (n : nat) (v : Val) : bool :=
  match v with
  | VRes m => Nat.eqb n m
  | VItem u k => refers n u || refers n k
  | VAttr u _ => refers n u
  | VList xs => existsb (refers n) xs
  | VDict kvs => existsb (λ kv, refers n kv.2) kvs
  | _ => false
  end.

(** Does event [e] use the result of event [n], as callee or argument? *)
Definition event_refers (n : nat) (e : Event) : bool :=
  match e with
  | ECall c args kw =>
      refers n c || existsb (refers n) args || existsb (λ kv, refers n kv.2) kw
  | _ => false
  end.

(** How many events of the run use the result of event [n]. *)
Definition uses (tr : list Event) (n : nat) : nat :=
  length (filter (λ e, event_refers n e = true) tr).

(** [e] calls attribute [a] of the name [n] imported from module [m]. *)
Definition calls_attr_of (m n a : string) (e : Event) : bool :=
  match e with
  | ECall (VAttr (VLib m' n') a') _ _ =>
      String.eqb m m' && String.eqb n n' && String.eqb a a'
  | _ => false
  end.

(** The value the run's [wandb.init(config=...)] records under [k]. *)
Definition wandb_logged (tr : list Event) (k : string) : list (option Val) :=
  (λ e, match kwarg "config" (kwargs_of e) with
        | Some (VDict d) => dict_get (lit k) d
        | _ => None
        end)
    <$> filter (λ e, calls_attr_of "wandb" "" "init" e = true) tr.

(** [cell_setup] with the string assigned to [finetune_name] given as a
    Python string. *)
Definition cell_setup_named (w : World) (finetune_name : pystr) : M unit :=
  from_import "transformers" ["AutoModelForCausalLM"; "AutoTokenizer"];;
  from_import "datasets" ["load_dataset"];;
  from_import "trl" ["SFTConfig"; "SFTTrainer"; "setup_chat_format"];;
  import_ "torch";;
  "device" ::= select_device w;;
  "model_name" ::= str "HuggingFaceTB/SmolLM2-135M";;
  "model" ::=
    call (call (var "AutoModelForCausalLM" >. "from_pretrained") []
               [("pretrained_model_name_or_path", var "model_name")] >. "to")
         [var "device"] [];;
  "tokenizer" ::=
    call (var "AutoTokenizer" >. "from_pretrained") []
         [("pretrained_model_name_or_path", var "model_name")];;
  unpack2 "model" "tokenizer"
    (call (var "setup_chat_format") []
          [("model", var "model"); ("tokenizer", var "tokenizer")]);;
  "finetune_name" ::= chars finetune_name;;
  "finetune_tags" ::= list_ [str "smol-course"; str "module_1"].

(** The LoRA notebook with the string assigned to [finetune_name] as a
    parameter; the source assigns ["SmolLM2-FT-MyDataset"]. *)
Definition lora_notebook_named (name : pystr) (w : World) : list (M unit) :=
  [ cell_install_login;
    lora_cell_dataset;
    cell_setup_named w name;
    cell_generate w "Before training:";
    lora_cell_peft_config;
    lora_cell_args;
    lora_cell_trainer;
    lora_cell_train;
    lora_cell_merge;
    lora_cell_free;
    lora_cell_pipeline;
    lora_cell_inference w;
    cell_shutdown ].

(** A world whose pipeline answers with less text than the rendered
    prompt has. *)
Definition terse_world : World :=
  {| cuda_available := true;
     mps_available := false;
     text := λ v, match v with
                  | VRes _ => lit "<user>hi"
                  | _ => lit "ok"
                  end |}.

(** Kernels used as concrete instances. *)
Definition torch_imported : State := fst (import_ "torch" fresh_kernel).

Definition before_inference_terse : State :=
  fst (run_cells (take 11 (lora_notebook terse_world)) fresh_kernel).

Definition two_prompts_bound : State :=
  fst (("prompts" ::= list_ [str "hi"; str "ho"];; def "test_inference") before_inference).

Definition after_merge : State :=
  fst (run_cells (take 9 (lora_notebook quiet_world)) fresh_kernel).

Definition turtle_trainer_built : State :=
  fst (run_cells (take 6 (sft_finetuning_example_turtle quiet_world)) fresh_kernel).

(** ** Evaluating a run for an arbitrary world *)

(** The notebooks branch on the world only through the two device flags;
    once those are fixed a run is a closed computation over [text], and an
    equation between observations of it is checked by evaluating both sides. *)
Ltac by_vm :=
  match goal with
  | |- @eq ?T _ ?b => vm_cast_no_check (@eq_refl T b)
  end.

Ltac run_world w := destruct w as [[] [] ?]; split_and?; by_vm.

(** Closes a goal made of evaluated observations and index comparisons. *)
Ltac check_run :=
  unfold prints_generation, prints_response;
  split_and?; first [by_vm | lia].

(** An equation between two runs is checked against the common value of its
    sides, in which the string operations of [test_inference] on the
    world's texts stay as they are written. *)
Ltac by_common_value :=
  match goal with
  | |- @eq ?T ?a _ =>
      let v := eval lazy -[strip slice_from py_len] in a in
      transitivity v;
      [ vm_cast_no_check (@eq_refl T v)
      | symmetry; vm_cast_no_check (@eq_refl T v) ]
  end.

(** ** Sanity checks *)

Example strip_hello : strip (lit "  hello ") = lit "hello".
Proof. reflexivity. Qed.

Example strip_newlines : strip (NL ++ [9%N] ++ lit "a b" ++ NL ++ NL) = lit "a b".
Proof. reflexivity. Qed.

Example strip_blank : strip (lit "   ") = [].
Proof. reflexivity. Qed.

Example slice_past_end : slice_from 5 (lit "abc") = [].
Proof. reflexivity. Qed.

(** On a CPU-only machine the LoRA notebook runs 82 events; the first
    iteration of the inference loop prints the prompt header, and each
    iteration ends with a rule of eighty [=]. *)
Example lora_run_length : length (events lora_notebook quiet_world) = 82%nat.
Proof. by_vm. Qed.

Example lora_prompt_header :
  printed_at (events lora_notebook quiet_world) 41
  = Some (NL ++ ESC ++ lit "[1mPrompt #1:" ++ ESC ++ lit "[0m").
Proof. by_vm. Qed.

Example lora_rule :
  printed_at (events lora_notebook quiet_world) 47
  = Some (NL ++ replicate 80 61%N).
Proof. by_vm. Qed.

Example turtle_save_model_path :
  method_receivers "save_model" (events sft_finetuning_example_turtle quiet_world)
  = [VRes 22]
  ∧ args_at (events sft_finetuning_example_turtle quiet_world) 24
    = Some [VStr (lit "./SmolLM2-FT-Smoltalk")].
Proof. split; by_vm. Qed.

(** A name that was deleted is unbound: after the cell that frees the
    memory, [trainer] is gone while [merged_model] is still there. *)
Example lora_del_trainer :
  final_global lora_notebook quiet_world "trainer" = None
  ∧ final_global lora_notebook quiet_world "merged_model" = Some (VRes 32).
Proof. split; by_vm. Qed.

(** ** The namespace behaves as a dict *)

Lemma ns_get_set_eq (x : string) (v : Val) (ns : namespace) :
  ns_get x (ns_set x v ns) = Some v.
Proof.
  induction ns as [| [y u] ns IH]; simpl.
  - rewrite String.eqb_refl. reflexivity.
  - destruct (String.eqb x y) eqn:E; simpl.
    + rewrite String.eqb_refl. reflexivity.
    + rewrite E. exact IH.
Qed.

Lemma ns_get_set_ne (x y : string) (v : Val) (ns : namespace) :
  x ≠ y → ns_get y (ns_set x v ns) = ns_get y ns.
Proof.
  intros Hne. induction ns as [| [z u] ns IH]; simpl.
  - apply String.eqb_neq in Hne. rewrite String.eqb_sym, Hne. reflexivity.
  - destruct (String.eqb x z) eqn:E; simpl.
    + apply String.eqb_eq in E. subst z.
      apply String.eqb_neq in Hne. rewrite String.eqb_sym, Hne. reflexivity.
    + destruct (String.eqb y z); [reflexivity | exact IH].
Qed.

Lemma ns_get_None (x : string) (ns : namespace) :
  x ∉ names ns → ns_get x ns = None.
Proof.
  induction ns as [| [y u] ns IH]; simpl; [reflexivity |].
  intros Hnotin. apply not_elem_of_cons in Hnotin as [Hne Hrest].
  apply String.eqb_neq in Hne. rewrite Hne. apply IH, Hrest.
Qed.

Lemma names_ns_del (x y : string) (ns : namespace) :
  y ∈ names (ns_del x ns) → y ∈ names ns.
Proof.
  induction ns as [| [z u] ns IH]; simpl; [done |].
  destruct (String.eqb x z); simpl.
  - intros H. by apply list_elem_of_further.
  - intros H. apply elem_of_cons in H as [-> | H].
    + apply list_elem_of_here.
    + apply list_elem_of_further, IH, H.
Qed.

(** After [del x] the name is unbound, for a namespace with one item per
    name. *)
Lemma ns_get_del_eq (x : string) (ns : namespace) :
  NoDup (names ns) → ns_get x (ns_del x ns) = None.
Proof.
  induction ns as [| [y u] ns IH]; simpl; [reflexivity |].
  intros Hnd. apply NoDup_cons in Hnd as [Hy Hnd].
  destruct (String.eqb x y) eqn:E; simpl.
  - apply String.eqb_eq in E. subst y. by apply ns_get_None.
  - rewrite E. by apply IH.
Qed.

Lemma names_ns_set (x : string) (v : Val) (ns : namespace) :
  names (ns_set x v ns) = if bool_decide (x ∈ names ns) then names ns else names ns ++ [x].
Proof.
  induction ns as [| [y u] ns IH]; simpl; [reflexivity |].
  destruct (String.eqb x y) eqn:E; simpl.
  - apply String.eqb_eq in E. subst y.
    rewrite bool_decide_eq_true_2 by apply list_elem_of_here. reflexivity.
  - apply String.eqb_neq in E. rewrite IH.
    destruct (bool_decide (x ∈ names ns)) eqn:D.
    + apply bool_decide_eq_true in D.
      rewrite bool_decide_eq_true_2 by (by apply list_elem_of_further). reflexivity.
    + apply bool_decide_eq_false in D.
      rewrite bool_decide_eq_false_2; [reflexivity |].
      intros H. apply elem_of_cons in H as [-> | H]; [by apply E | by apply D].
Qed.

(** Assignment keeps one item per name. *)
Lemma ns_set_NoDup (x : string) (v : Val) (ns : namespace) :
  NoDup (names ns) → NoDup (names (ns_set x v ns)).
Proof.
  intros Hnd. rewrite names_ns_set. case_bool_decide as Hin; [exact Hnd |].
  apply NoDup_app. split_and!; [exact Hnd | | apply NoDup_singleton].
  intros y Hy Hy'. apply list_elem_of_singleton in Hy'. by subst y.
Qed.

(** ** [strip] removes the surrounding whitespace *)

Lemma lstrip_head (s : pystr) (c : N) :
  head (lstrip s) = Some c → isspace c = false.
Proof.
  induction s as [| a s IH]; simpl; [discriminate |].
  destruct (isspace a) eqn:E; [exact IH |].
  simpl. intros [= <-]. exact E.
Qed.

Lemma lstrip_suffix (s : pystr) : lstrip s `suffix_of` s.
Proof.
  induction s as [| a s IH]; simpl; [done |].
  destruct (isspace a); [by apply suffix_cons_r | done].
Qed.

Lemma rstrip_last (s : pystr) (c : N) :
  last (rstrip s) = Some c → isspace c = false.
Proof. unfold rstrip. rewrite last_reverse. apply lstrip_head. Qed.

Lemma suffix_last (s t : pystr) (c : N) :
  s `suffix_of` t → last s = Some c → last t = Some c.
Proof.
  intros [pre ->] Hlast. destruct s as [| a s]; [discriminate |].
  rewrite last_app, Hlast. reflexivity.
Qed.

Lemma strip_ends (s : pystr) (c : N) :
  head (strip s) = Some c ∨ last (strip s) = Some c → isspace c = false.
Proof.
  unfold strip. intros [Hhead | Hlast].
  - by apply lstrip_head in Hhead.
  - apply (rstrip_last s). eapply suffix_last; [apply lstrip_suffix | exact Hlast].
Qed.

(** What is stripped off is whitespace only. *)
Lemma lstrip_spaces (s : pystr) :
  ∃ pre, s = pre ++ lstrip s ∧ forallb isspace pre = true.
Proof.
  induction s as [| a s (pre & Heq & Hsp)]; simpl; [by exists [] |].
  destruct (isspace a) eqn:E.
  - exists (a :: pre). simpl. rewrite E, Hsp. split; [by f_equal | done].
  - by exists [].
Qed.

(** ** Running cells *)

(** A run executes the cells in order. *)
Lemma run_cells_app (cs1 cs2 : list (M unit)) (st : State) :
  run_cells (cs1 ++ cs2) st
  = match run_cells cs1 st with
    | (st', Ok _) => run_cells cs2 st'
    | (st', Raise e) => (st', Raise e)
    end.
Proof.
  revert st. induction cs1 as [| c cs1 IH]; intros st; simpl; [reflexivity |].
  unfold mbind, M_bind. destruct (c st) as [st' [[] | e]]; [apply IH | reflexivity].
Qed.

(** A cell that raises ends the run: later cells are not executed. *)
Lemma run_cells_raise (c : M unit) (cs : list (M unit)) (st st' : State) (e : Exn) :
  c st = (st', Raise e) → run_cells (c :: cs) st = (st', Raise e).
Proof. intros H. simpl. unfold mbind, M_bind. rewrite H. reflexivity. Qed.

(** Recording an event appends it and returns its position. *)
Lemma emit_spec (e : Event) (st : State) :
  ∃ st', emit e st = (st', Ok (length (trace st)))
         ∧ trace st' = trace st ++ [e]
         ∧ trace st' !! length (trace st) = Some e
         ∧ globals st' = globals st.
Proof.
  eexists. split; [reflexivity |]. simpl. split_and!; try reflexivity.
  rewrite lookup_app_r by lia. by rewrite Nat.sub_diag.
Qed.

(** The device selection follows the precedence CUDA, MPS, CPU in any
    kernel where [torch] is imported, whatever ran before. *)
Lemma select_device_precedence (w : World) (st : State) :
  ns_get "torch" (globals st) = Some (VLib "torch" "") →
  ∃ st',
    select_device w st = (st', Ok (VStr (lit (spec_device w))))
    ∧ globals st' = globals st
    ∧ trace st `prefix_of` trace st'.
Proof.
  intros Htorch.
  unfold select_device, cond, truthy, call, attr, var, str.
  unfold fmap, M_fmap, mbind, M_bind, mret, M_ret, get_state, emit, raise.
  simpl. rewrite Htorch. simpl.
  rewrite lookup_app_r by lia. rewrite Nat.sub_diag. simpl.
  unfold spec_device. destruct (cuda_available w).
  - eexists. split_and!; [reflexivity | reflexivity |]. simpl. by apply prefix_app_r.
  - simpl. rewrite Htorch. simpl.
    rewrite lookup_app_r by (rewrite length_app; simpl; lia).
    rewrite length_app. simpl.
    replace (length (trace st) + 1 - (length (trace st) + 1))%nat with 0%nat by lia.
    simpl.
    destruct (mps_available w);
      (eexists; split_and!; [reflexivity | reflexivity |]; simpl;
       rewrite <- app_assoc; by apply prefix_app_r).
Qed.

(** ** The runs complete *)

Lemma lora_notebook_completes (w : World) (rd la ld : Val) :
  snd (run (lora_notebook_with w rd la ld)) = Ok tt.
Proof. run_world w. Qed.

Lemma turtle_notebook_completes (w : World) :
  outcome sft_finetuning_example_turtle w = Ok tt.
Proof. run_world w. Qed.

Local Open Scope nat_scope.

(** ** C1: is every trainer given a LoRA configuration? *)

(** C1, as stated, fails: the trainer of the turtle notebook is constructed
    without [peft_config]. *)
Lemma C1_turtle_trainer_without_lora :
  every_trainer_has_lora (events sft_finetuning_example_turtle quiet_world) = false.
Proof. by_vm. Qed.

(** C1 (amended): in the LoRA notebook the one [SFTTrainer] is constructed
    with [peft_config] bound to the result of
    [LoraConfig(r=16, lora_alpha=32, lora_dropout=0.1, bias="none",
    target_modules="all-linear", task_type="CAUSAL_LM")]; in the turtle
    notebook the one [SFTTrainer] is constructed without a [peft_config]. *)
Theorem C1_peft_config_per_notebook (w : World) :
  every_trainer_has_lora (events lora_notebook w) = true
  ∧ peft_config_of (events lora_notebook w) <$> trainers (events lora_notebook w)
  = [Some [("r", VInt 16); ("lora_alpha", VInt 32);
           ("lora_dropout", VFloat 1 (-1));
           ("bias", VStr (lit "none"));
           ("target_modules", VStr (lit "all-linear"));
           ("task_type", VStr (lit "CAUSAL_LM"))]]
  ∧ (λ e, kwarg "peft_config" (kwargs_of e))
      <$> trainers (events sft_finetuning_example_turtle w)
    = [None].
Proof. run_world w. Qed.

(** ** C2: are the requirements installed before they are imported? *)

(** C2, as stated, fails: a run of the turtle notebook imports
    [huggingface_hub] without any shell command before it. *)
Lemma C2_no_install_before_import :
  installs_before_import (events sft_finetuning_example_turtle quiet_world) = false.
Proof. by_vm. Qed.

(** Had the [pip install] line not been commented out, the first cell
    would have counted as installing before importing. *)
Example install_line_uncommented :
  installs_before_import
    (trace (fst ((shell "pip install transformers datasets trl huggingface_hub";;
                  cell_install_login) fresh_kernel))) = true.
Proof. by_vm. Qed.

(** C2 (amended): no run of either notebook executes a shell command (the
    [pip install] line is a comment), and each run starts with
    [from huggingface_hub import login]; so the packages are imported
    without the notebook having installed them. *)
Theorem C2_nothing_installed (w : World) :
  (filter (λ e, is_shell e = true) (events lora_notebook w) = []
   ∧ head (events lora_notebook w) = Some (EImport "huggingface_hub" ["login"])
   ∧ installs_before_import (events lora_notebook w) = false)
  ∧ (filter (λ e, is_shell e = true) (events sft_finetuning_example_turtle w) = []
     ∧ head (events sft_finetuning_example_turtle w)
       = Some (EImport "huggingface_hub" ["login"])
     ∧ installs_before_import (events sft_finetuning_example_turtle w) = false).
Proof. run_world w. Qed.

(** ** C3: generation samples before and after training *)

(** The proofs name the positions of the events involved; when CUDA is
    available [torch.backends.mps.is_available()] is not called and every
    later position is one less, which is the shift [k]. *)
Ltac model_chain chat to pre :=
  apply (loaded_chat_format _ _ chat (VRes to)); [by_vm | by_vm |];
  apply (loaded_to _ _ to (VRes pre)); [by_vm |];
  apply loaded_pretrained; by_vm.

Ltac lora_samples k :=
  exists (VItem (VRes (13 - k)) (VInt 0)),
         (17 - k), (18 - k), (19 - k), (20 - k), (26 - k), (27 - k);
  split_and?;
  [ check_run
  | model_chain (13 - k) (11 - k) (10 - k)
  | check_run | check_run | check_run | check_run | check_run | check_run
  | check_run | check_run | check_run
  | exists (45 - k), (46 - k); split; [lia |]; right;
    match goal with
    | tx : Val → pystr |- _ => exists (40 - k), (tx (VRes (44 - k)))
    end; check_run ].

Ltac turtle_samples k :=
  exists (VItem (VRes (11 - k)) (VInt 0)),
         (15 - k), (16 - k), (17 - k), (18 - k), (22 - k), (23 - k);
  split_and?;
  [ check_run
  | model_chain (11 - k) (9 - k) (8 - k)
  | check_run | check_run | check_run | check_run | check_run | check_run
  | check_run | check_run | check_run
  | exists (29 - k), (32 - k); split; [lia |]; left;
    exists (VItem (VRes (11 - k)) (VInt 0)), (31 - k); check_run ].

(** C3: in both notebooks a generation of the base model (the model loaded
    from [HuggingFaceTB/SmolLM2-135M], before any trainer is constructed and
    before any [train] call) is printed under [Before training:]; that
    model is given to the one trainer of the run, on which the only
    [train()] of the run is called afterwards; and after that call a
    generation is made and printed (by the five [test_inference] responses
    of the LoRA notebook, by the [After training:] cell of the turtle
    notebook); both runs complete. *)
Theorem C3_samples_before_and_after_training (w : World) :
  (outcome lora_notebook w = Ok tt
   ∧ samples_around_training w (events lora_notebook w)
       (lit "HuggingFaceTB/SmolLM2-135M"))
  ∧ (outcome sft_finetuning_example_turtle w = Ok tt
     ∧ samples_around_training w (events sft_finetuning_example_turtle w)
         (lit "HuggingFaceTB/SmolLM2-135M")).
Proof.
  destruct w as [[] [] tx]; (split; split; [by_vm | | by_vm |]);
    [ lora_samples 1 | turtle_samples 1 | lora_samples 1 | turtle_samples 1
    | lora_samples 0 | turtle_samples 0 | lora_samples 0 | turtle_samples 0 ].
Qed.

(** ** C6: what the notebooks do beyond glue *)

(** C6, as stated, fails: a run of the turtle notebook uploads to the hub
    and shuts the kernel down. *)
Lemma C6_turtle_uploads_and_shuts_down :
  glue_only (events sft_finetuning_example_turtle quiet_world) = false
  ∧ classify <$> uploads (events sft_finetuning_example_turtle quiet_world) = [HubUpload]
  ∧ classify <$> shutdowns (events sft_finetuning_example_turtle quiet_world)
    = [KernelShutdown].
Proof. split_and?; by_vm. Qed.

(** C6 (amended): the operations of a run are exactly those listed below
    for its notebook: imports, printed lines, the construction of
    configuration objects ([wandb.init], [LoraConfig], [SFTConfig]) and
    calls of the library functions named; no shell command is run.  Two of
    them are more than glue: the turtle notebook uploads the trained model
    to the hub, once, by [trainer.push_to_hub(tags=finetune_tags)] on its
    trainer after [trainer.train()], and both notebooks end with
    [app.kernel.do_shutdown(True)].  The LoRA notebook does not upload: it
    never calls [push_to_hub], and the [SFTConfig] of its trainer is built
    with [push_to_hub=False]. *)
Theorem C6_effects_beyond_glue (w : World) :
  (inventory (events lora_notebook w)
   = [("import", Sequencing); ("login", Sequencing);
      ("load_dataset", Sequencing); ("is_available", Sequencing);
      ("from_pretrained", Sequencing); ("to", Sequencing);
      ("setup_chat_format", Sequencing);
      ("apply_chat_template", Sequencing); ("()", Sequencing);
      ("generate", Sequencing); ("print", ConsoleOutput);
      ("decode", Sequencing); ("init", Configuration);
      ("LoraConfig", Configuration); ("SFTConfig", Configuration);
      ("SFTTrainer", Sequencing); ("train", Sequencing);
      ("save_model", Sequencing); ("finish", Sequencing);
      ("merge_and_unload", Sequencing); ("save_pretrained", Sequencing);
      ("empty_cache", Sequencing); ("pipeline", Sequencing);
      ("HTML", Sequencing); ("display", Sequencing);
      ("instance", Sequencing); ("do_shutdown", KernelShutdown)]
   ∧ filter (λ c, c ∉ [Sequencing; Configuration; ConsoleOutput])
            (classify <$> events lora_notebook w) = [KernelShutdown]
   ∧ (λ e, (classify e, args_of e)) <$> last (events lora_notebook w)
     = Some (KernelShutdown, [VBool true])
   ∧ uploads (events lora_notebook w) = []
   ∧ (λ e, trainer_args_of (events lora_notebook w) e ≫= kwarg "push_to_hub")
       <$> trainers (events lora_notebook w)
     = [Some (VBool false)]
   ∧ (λ e, kwarg "push_to_hub" (kwargs_of e))
       <$> filter (λ e, calls_name "trl" "SFTConfig" e = true)
                  (events lora_notebook w)
     = [Some (VBool false)])
  ∧ (inventory (events sft_finetuning_example_turtle w)
     = [("import", Sequencing); ("login", Sequencing);
        ("is_available", Sequencing); ("from_pretrained", Sequencing);
        ("to", Sequencing); ("setup_chat_format", Sequencing);
        ("apply_chat_template", Sequencing); ("()", Sequencing);
        ("generate", Sequencing); ("print", ConsoleOutput);
        ("decode", Sequencing); ("load_dataset", Sequencing);
        ("SFTConfig", Configuration); ("SFTTrainer", Sequencing);
        ("train", Sequencing); ("save_model", Sequencing);
        ("push_to_hub", HubUpload); ("HTML", Sequencing);
        ("display", Sequencing); ("instance", Sequencing);
        ("do_shutdown", KernelShutdown)]
     ∧ filter (λ c, c ∉ [Sequencing; Configuration; ConsoleOutput])
              (classify <$> events sft_finetuning_example_turtle w)
       = [HubUpload; KernelShutdown]
     ∧ (λ e, (classify e, args_of e)) <$> last (events sft_finetuning_example_turtle w)
       = Some (KernelShutdown, [VBool true])
     ∧ kwargs_of <$> uploads (events sft_finetuning_example_turtle w)
       = [[("tags", VList [VStr (lit "smol-course"); VStr (lit "module_1")])]]
     ∧ method_receivers "push_to_hub" (events sft_finetuning_example_turtle w)
       = VRes <$> positions (calls_name "trl" "SFTTrainer")
                            (events sft_finetuning_example_turtle w)
     ∧ method_calls ["train"; "push_to_hub"; "do_shutdown"]
                    (events sft_finetuning_example_turtle w)
       = ["train"; "push_to_hub"; "do_shutdown"]).
Proof. run_world w. Qed.

(** ** C7: the model and the data *)

Ltac trains_with k trainer data :=
  exists (trainer - k), (VItem (VRes (13 - k)) (VInt 0)),
         (VItem (VRes data) (VStr (lit "train")));
  split_and?;
  [ by_vm | by_vm | by_vm
  | model_chain (13 - k) (11 - k) (10 - k)
  | by_vm
  | apply split_of_loaded; by_vm ].

Ltac turtle_trains_with k :=
  exists (22 - k), (VItem (VRes (11 - k)) (VInt 0)),
         (VItem (VRes (20 - k)) (VStr (lit "train")));
  split_and?;
  [ by_vm | by_vm | by_vm
  | model_chain (11 - k) (9 - k) (8 - k)
  | by_vm
  | apply split_of_loaded; by_vm ].

(** C7: in both notebooks the one trainer, on which [train] is called, is
    given the model loaded from [HuggingFaceTB/SmolLM2-135M] and, as
    [train_dataset], the [train] split of
    [load_dataset(path="HuggingFaceTB/smoltalk", name="everyday-conversations")]. *)
Theorem C7_same_model_and_dataset (w : World) :
  trains (events lora_notebook w)
         (lit "HuggingFaceTB/SmolLM2-135M")
         (lit "HuggingFaceTB/smoltalk") (lit "everyday-conversations") (lit "train")
  ∧ trains (events sft_finetuning_example_turtle w)
           (lit "HuggingFaceTB/SmolLM2-135M")
           (lit "HuggingFaceTB/smoltalk") (lit "everyday-conversations") (lit "train").
Proof.
  destruct w as [[] [] tx]; split;
    [ trains_with 1 26 3 | turtle_trains_with 1
    | trains_with 1 26 3 | turtle_trains_with 1
    | trains_with 0 26 3 | turtle_trains_with 0
    | trains_with 0 26 3 | turtle_trains_with 0 ].
Qed.

(** ** C8: where the LoRA hyperparameters come from *)


(** ** C9: the device *)

(** C9: in both notebooks [device] is ["cuda"] when CUDA is available,
    otherwise ["mps"] when MPS is available, otherwise ["cpu"]; and the
    [SFTConfig] that the turtle notebook passes to its trainer has
    [use_mps_device] equal to [True] exactly when that device is ["mps"]. *)
Theorem C9_device_precedence (w : World) :
  final_global lora_notebook w "device" = Some (VStr (lit (spec_device w)))
  ∧ final_global sft_finetuning_example_turtle w "device"
    = Some (VStr (lit (spec_device w)))
  ∧ (λ e, trainer_args_of (events sft_finetuning_example_turtle w) e
            ≫= kwarg "use_mps_device")
      <$> trainers (events sft_finetuning_example_turtle w)
    = [Some (VBool (bool_decide (spec_device w = "mps")))].
Proof. run_world w. Qed.

(** ** C10: what [test_inference] returns *)

(** C10: in a kernel where [pipe] is bound to a library object,
    [test_inference(prompt)] renders the chat template, calls [pipe] on the
    rendered prompt, and returns the pipeline's [generated_text] without its
    first [len(rendered prompt)] characters and stripped of surrounding
    whitespace (it neither starts nor ends with a whitespace character);
    when the generated text starts with the rendered prompt, what is
    returned is the stripped continuation, the prompt occurrence at the
    start being cut off. *)
Theorem C10_test_inference_cuts_prompt (w : World) (st : State) (pipe prompt : Val) :
  ns_get "pipe" (globals st) = Some pipe →
  is_lib pipe = true →
  let template :=
    ECall (VAttr (VAttr pipe "tokenizer") "apply_chat_template")
          [VList [VDict [(lit "role", VStr (lit "user")); (lit "content", prompt)]]]
          [("tokenize", VBool false); ("add_generation_prompt", VBool true)] in
  let formatted := text w (VRes (length (trace st))) in
  let generated :=
    text w (VItem (VItem (VRes (S (length (trace st)))) (VInt 0))
                  (VStr (lit "generated_text"))) in
  test_inference w prompt st
  = ({| globals := globals st; wandb_config := wandb_config st;
        trace := trace st ++ [template; ECall pipe [VStr formatted] []] |},
     Ok (VStr (strip (slice_from (py_len formatted) generated))))
  ∧ (∀ c : N,
       head (strip (slice_from (py_len formatted) generated)) = Some c
       ∨ last (strip (slice_from (py_len formatted) generated)) = Some c →
       isspace c = false)
  ∧ ∀ rest : pystr,
      generated = formatted ++ rest →
      strip (slice_from (py_len formatted) generated) = strip rest.
Proof.
  intros Hpipe Hlib template formatted generated. split_and!.
  - unfold test_inference, call_str, as_str, call, attr, var, item, list_,
      dict_, str, bool_, int.
    unfold fmap, M_fmap, mbind, M_bind, mret, M_ret, get_state, emit. simpl.
    repeat (rewrite ?Hpipe, ?Hlib; simpl).
    rewrite length_app, Nat.add_1_r, <- app_assoc. reflexivity.
  - intros c. apply strip_ends.
  - intros rest ->. unfold slice_from, py_len. rewrite drop_app_length. reflexivity.
Qed.

(** In [echo_world] the pipeline of the LoRA notebook answers the rendered
    prompt [<user>hi] with [<user>hi  hello ], and [test_inference] returns
    [hello]. *)
Lemma C10_test_inference_cuts_prompt_witness :
  ns_get "pipe" (globals before_inference) = Some (VRes 40)
  ∧ snd (test_inference echo_world (VStr (lit "hi")) before_inference)
    = Ok (VStr (lit "hello")).
Proof.
  assert (Hpipe : ns_get "pipe" (globals before_inference) = Some (VRes 40))
    by (vm_compute; reflexivity).
  split; [exact Hpipe |].
  destruct (C10_test_inference_cuts_prompt echo_world before_inference
              (VRes 40) (VStr (lit "hi")) Hpipe eq_refl) as (Hrun & _ & Hcut).
  rewrite Hrun. unfold snd. apply (f_equal (λ s, Ok (VStr s))).
  transitivity (strip (lit "  hello ")).
  - apply Hcut. vm_compute. reflexivity.
  - vm_compute. reflexivity.
Defined.

(** * Beyond the claims *)

(** ** Executing a cell in an arbitrary kernel *)

Lemma ns_get_set (x y : string) (v : Val) (ns : namespace) :
  ns_get y (ns_set x v ns) = if String.eqb x y then Some v else ns_get y ns.
Proof.
  destruct (String.eqb x y) eqn:E.
  - apply String.eqb_eq in E. subst y. apply ns_get_set_eq.
  - apply String.eqb_neq in E. by apply ns_get_set_ne.
Qed.

Lemma ns_get_del_ne (x y : string) (ns : namespace) :
  x ≠ y → ns_get y (ns_del x ns) = ns_get y ns.
Proof.
  intros Hne. induction ns as [| [z u] ns IH]; simpl; [reflexivity |].
  destruct (String.eqb x z) eqn:E; simpl.
  - apply String.eqb_eq in E. subst z.
    apply String.eqb_neq in Hne. rewrite String.eqb_sym, Hne. reflexivity.
  - destruct (String.eqb y z); [reflexivity | exact IH].
Qed.

Lemma ns_del_NoDup (x : string) (ns : namespace) :
  NoDup (names ns) → NoDup (names (ns_del x ns)).
Proof.
  induction ns as [| [z u] ns IH]; simpl; [done |].
  intros Hnd. apply NoDup_cons in Hnd as [Hz Hnd].
  destruct (String.eqb x z); simpl; [exact Hnd |].
  apply NoDup_cons. split; [| by apply IH].
  intros Hin. by apply Hz, (names_ns_del x).
Qed.

(** Symbolic execution: unfold the monad, compute, and resolve the lookups
    of names that the hypotheses or earlier assignments determine. *)
Ltac exec_with tac :=
  repeat (progress
            (unfold fpart, as_str, fmap, M_fmap, mbind, M_bind, mret, M_ret,
               get_state, emit, set_global, raise;
             cbn -[lit pretty strip slice_from py_len str_mul app NL ESC];
             rewrite ?ns_get_set; tac)).

(** ** The device selection *)

(** X1: in any kernel where [torch] is imported, the device expression
    calls [torch.cuda.is_available()] and, only when that answers no,
    [torch.backends.mps.is_available()]; it yields the device by the
    precedence CUDA, MPS, CPU and changes no variable. *)
Theorem select_device_queries (w : World) (st : State) :
  ns_get "torch" (globals st) = Some (VLib "torch" "") →
  select_device w st
  = ({| globals := globals st; wandb_config := wandb_config st;
        trace := trace st ++
                 (if cuda_available w
                  then [ECall torch_cuda_is_available [] []]
                  else [ECall torch_cuda_is_available [] [];
                        ECall torch_mps_is_available [] []]) |},
     Ok (VStr (lit (spec_device w)))).
Proof.
  intros Htorch.
  unfold select_device, cond, truthy, call, attr, var, str, spec_device.
  exec_with ltac:(rewrite ?Htorch).
  rewrite lookup_app_r by lia. rewrite Nat.sub_diag.
  exec_with idtac. destruct (cuda_available w); [reflexivity |].
  exec_with ltac:(rewrite ?Htorch).
  rewrite lookup_app_r by (rewrite length_app; simpl; lia).
  rewrite length_app. cbn [length].
  replace (length (trace st) + 1 - (length (trace st) + 1)) with 0 by lia.
  exec_with idtac. rewrite <- app_assoc.
  destruct (mps_available w); reflexivity.
Qed.

Lemma select_device_queries_witness :
  ns_get "torch" (globals torch_imported) = Some (VLib "torch" "")
  ∧ snd (select_device echo_world torch_imported) = Ok (VStr (lit "mps"))
  ∧ length (trace (fst (select_device echo_world torch_imported))) = 3.
Proof.
  assert (H : ns_get "torch" (globals torch_imported) = Some (VLib "torch" ""))
    by reflexivity.
  split; [exact H |].
  rewrite (select_device_queries echo_world torch_imported H).
  split; reflexivity.
Defined.

(** ** The inference loop *)

Lemma seq_assoc3 (a b c : M unit) (r : M unit) (st : State) :
  (a;; b;; c;; r) st
  = match (a;; b;; c) st with
    | (st', Ok _) => r st'
    | (st', Raise e) => (st', Raise e)
    end.
Proof.
  unfold mbind, M_bind.
  destruct (a st) as [st1 [[] | e1]]; [| reflexivity].
  destruct (b st1) as [st2 [[] | e2]]; [| reflexivity].
  destruct (c st2) as [st3 [[] | e3]]; reflexivity.
Qed.

(** One iteration: the loop variables are assigned, four lines are printed
    around the two library calls of [test_inference], then the rule. *)
Lemma iteration_run (w : World) (pipe : Val) (st : State) (k : Z) (p : pystr) :
  is_lib pipe = true →
  ns_get "pipe" (globals st) = Some pipe →
  ns_get "test_inference" (globals st) = Some (VFun "test_inference") →
  (set_global "i" (VInt k);; set_global "prompt" (VStr p);; lora_loop_body w) st
  = ({| globals := ns_set "response" (VStr (response_of w (length (trace st))))
                     (ns_set "prompt" (VStr p) (ns_set "i" (VInt k) (globals st)));
        wandb_config := wandb_config st;
        trace := trace st ++ iteration_events w pipe (length (trace st)) k p |},
     Ok tt).
Proof.
  intros Hlib Hpipe Hdef.
  unfold lora_loop_body, print, fstring, assign, call_def, test_inference,
    add_str, mul_str, call_str, as_str, call, attr, var, item, list_, dict_,
    str, chars, bool_, int.
  exec_with ltac:(rewrite ?Hpipe, ?Hdef, ?Hlib).
  rewrite !length_app, !app_nil_r, <- !app_assoc. cbn [length].
  rewrite <- !Nat.add_assoc. cbn [Nat.add]. reflexivity.
Qed.

Lemma loop_run (w : World) (pipe : Val) (ps : list pystr) :
  is_lib pipe = true →
  ∀ (st : State) (k : Z),
    ns_get "pipe" (globals st) = Some pipe →
    ns_get "test_inference" (globals st) = Some (VFun "test_inference") →
    ∃ st',
      for_items "i" "prompt" k (VStr <$> ps) (lora_loop_body w) st = (st', Ok tt)
      ∧ trace st' = trace st ++ loop_events w pipe (length (trace st)) k ps
      ∧ wandb_config st' = wandb_config st
      ∧ ∀ x, x ∉ ["i"; "prompt"; "response"] →
             ns_get x (globals st') = ns_get x (globals st).
Proof.
  intros Hlib. induction ps as [| p ps IH]; intros st k Hpipe Hdef.
  - exists st. simpl. rewrite app_nil_r. done.
  - cbn [fmap list_fmap for_items]. rewrite seq_assoc3.
    rewrite (iteration_run w pipe st k p Hlib Hpipe Hdef).
    set (st1 := {| globals := _; wandb_config := _; trace := _ |}).
    destruct (IH st1 (k + 1)%Z) as (st' & Hrun & Htrace & Hwandb & Hframe).
    { subst st1. cbn [globals]. rewrite !ns_get_set. exact Hpipe. }
    { subst st1. cbn [globals]. rewrite !ns_get_set. exact Hdef. }
    exists st'. split_and!.
    + exact Hrun.
    + rewrite Htrace. subst st1. cbn [trace loop_events].
      rewrite length_app, <- app_assoc. reflexivity.
    + rewrite Hwandb. reflexivity.
    + intros x Hx. rewrite (Hframe x Hx). subst st1. cbn [globals].
      rewrite !ns_get_set.
      repeat (apply not_elem_of_cons in Hx as [? Hx]).
      repeat (destruct (String.eqb _ x) eqn:E;
              [apply String.eqb_eq in E; congruence | clear E]).
      reflexivity.
Qed.

(** X2: for every list bound to [prompts], in a kernel where [pipe] is a
    library object and [test_inference] is defined, the loop
    [for i, prompt in enumerate(prompts, 1)] completes and appends, for the
    prompts in order, the seven events of one iteration each (header with
    the number counted from 1, prompt, [Response:], chat template call,
    pipeline call, response, rule); it changes no variable other than [i],
    [prompt] and [response]. *)
Theorem inference_loop_events (w : World) (pipe : Val) (ps : list pystr) (st : State) :
  is_lib pipe = true →
  ns_get "pipe" (globals st) = Some pipe →
  ns_get "test_inference" (globals st) = Some (VFun "test_inference") →
  ns_get "prompts" (globals st) = Some (VList (VStr <$> ps)) →
  ∃ st',
    for_enumerate "i" "prompt" (var "prompts") 1 (lora_loop_body w) st = (st', Ok tt)
    ∧ trace st' = trace st ++ loop_events w pipe (length (trace st)) 1 ps
    ∧ ∀ x, x ∉ ["i"; "prompt"; "response"] →
           ns_get x (globals st') = ns_get x (globals st).
Proof.
  intros Hlib Hpipe Hdef Hprompts.
  destruct (loop_run w pipe ps Hlib st 1%Z Hpipe Hdef)
    as (st' & Hrun & Htrace & _ & Hframe).
  exists st'. split_and!; [| exact Htrace | exact Hframe].
  unfold for_enumerate, var. exec_with ltac:(rewrite ?Hprompts). exact Hrun.
Qed.

Lemma inference_loop_events_witness :
  ns_get "prompts" (globals two_prompts_bound)
  = Some (VList (VStr <$> [lit "hi"; lit "ho"]))
  ∧ ∃ st',
      for_enumerate "i" "prompt" (var "prompts") 1 (lora_loop_body echo_world)
                    two_prompts_bound = (st', Ok tt)
      ∧ length (trace st') = length (trace two_prompts_bound) + 14.
Proof.
  assert (Hpipe : ns_get "pipe" (globals two_prompts_bound) = Some (VRes 40))
    by (vm_compute; reflexivity).
  assert (Hdef : ns_get "test_inference" (globals two_prompts_bound)
                 = Some (VFun "test_inference")) by (vm_compute; reflexivity).
  assert (Hprompts : ns_get "prompts" (globals two_prompts_bound)
                     = Some (VList (VStr <$> [lit "hi"; lit "ho"])))
    by (vm_compute; reflexivity).
  split; [exact Hprompts |].
  destruct (inference_loop_events echo_world (VRes 40) [lit "hi"; lit "ho"]
              two_prompts_bound eq_refl Hpipe Hdef Hprompts)
    as (st' & Hrun & Htrace & _).
  exists st'. split; [exact Hrun |].
  rewrite Htrace, length_app. reflexivity.
Defined.

Lemma loop_events_counts (w : World) (pipe : Val) (ps : list pystr) :
  ∀ (n : nat) (k : Z),
    length (filter (λ e, is_print e = true) (loop_events w pipe n k ps))
    = 5 * length ps
    ∧ length (filter (λ e, is_call e = true) (loop_events w pipe n k ps))
      = 2 * length ps.
Proof.
  induction ps as [| p ps IH]; intros n k; [done |].
  destruct (IH (n + 7) (k + 1)%Z) as [Hp Hc].
  cbn [loop_events]. rewrite !filter_app, !length_app, Hp, Hc.
  cbn [length]. split.
  - replace (length (filter (λ e, is_print e = true) (iteration_events w pipe n k p)))
      with 5 by reflexivity. lia.
  - replace (length (filter (λ e, is_call e = true) (iteration_events w pipe n k p)))
      with 2 by reflexivity. lia.
Qed.

(** X3: under the same conditions the loop prints five lines and makes
    two library calls (the chat template and the pipeline) per prompt, and
    records nothing else; with no prompts it does nothing. *)
Theorem inference_loop_counts (w : World) (pipe : Val) (ps : list pystr) (st : State) :
  is_lib pipe = true →
  ns_get "pipe" (globals st) = Some pipe →
  ns_get "test_inference" (globals st) = Some (VFun "test_inference") →
  ns_get "prompts" (globals st) = Some (VList (VStr <$> ps)) →
  ∃ st' new,
    for_enumerate "i" "prompt" (var "prompts") 1 (lora_loop_body w) st = (st', Ok tt)
    ∧ trace st' = trace st ++ new
    ∧ length (filter (λ e, is_print e = true) new) = 5 * length ps
    ∧ length (filter (λ e, is_call e = true) new) = 2 * length ps
    ∧ length new = 7 * length ps.
Proof.
  intros Hlib Hpipe Hdef Hprompts.
  destruct (loop_run w pipe ps Hlib st 1%Z Hpipe Hdef)
    as (st' & Hrun & Htrace & _ & _).
  exists st', (loop_events w pipe (length (trace st)) 1 ps).
  destruct (loop_events_counts w pipe ps (length (trace st)) 1%Z) as [Hp Hc].
  split_and!; [| exact Htrace | exact Hp | exact Hc |].
  - unfold for_enumerate, var. exec_with ltac:(rewrite ?Hprompts). exact Hrun.
  - clear. generalize (length (trace st)) 1%Z.
    induction ps as [| p ps IH]; intros n k; [done |].
    cbn [loop_events]. rewrite length_app, IH. cbn [length iteration_events]. lia.
Qed.

Lemma inference_loop_counts_witness :
  ns_get "prompts" (globals two_prompts_bound)
  = Some (VList (VStr <$> [lit "hi"; lit "ho"]))
  ∧ ∃ st' new,
      for_enumerate "i" "prompt" (var "prompts") 1 (lora_loop_body echo_world)
                    two_prompts_bound = (st', Ok tt)
      ∧ trace st' = trace two_prompts_bound ++ new
      ∧ length (filter (λ e, is_print e = true) new) = 10.
Proof.
  assert (Hpipe : ns_get "pipe" (globals two_prompts_bound) = Some (VRes 40))
    by (vm_compute; reflexivity).
  assert (Hdef : ns_get "test_inference" (globals two_prompts_bound)
                 = Some (VFun "test_inference")) by (vm_compute; reflexivity).
  assert (Hprompts : ns_get "prompts" (globals two_prompts_bound)
                     = Some (VList (VStr <$> [lit "hi"; lit "ho"])))
    by (vm_compute; reflexivity).
  split; [exact Hprompts |].
  destruct (inference_loop_counts echo_world (VRes 40) [lit "hi"; lit "ho"]
              two_prompts_bound eq_refl Hpipe Hdef Hprompts)
    as (st' & new & Hrun & Htrace & Hprints & _).
  exists st', new. split_and!; [exact Hrun | exact Htrace | exact Hprints].
Defined.

(** X4: in a kernel where [pipe] is not bound (the pipeline cell was not
    run), the inference cell prints the header of prompt 1, the prompt and
    [Response:], and then raises [NameError] for [pipe]; no library call is
    made. *)
Theorem inference_cell_without_pipe (w : World) (st : State) :
  ns_get "pipe" (globals st) = None →
  ∃ st',
    lora_cell_inference w st = (st', Raise (NameError "pipe"))
    ∧ trace st'
      = trace st ++
        [ EPrint (NL ++ ESC ++ lit "[1mPrompt #" ++ lit (pretty 1%Z) ++ lit ":"
                  ++ ESC ++ lit "[0m");
          EPrint (ESC ++ lit "[94m"
                  ++ lit "What is the capital of Germany? Explain why thats the case and if it was different in the past?"
                  ++ ESC ++ lit "[0m");
          EPrint (NL ++ ESC ++ lit "[1mResponse:" ++ ESC ++ lit "[0m") ].
Proof.
  intros Hpipe.
  unfold lora_cell_inference, for_enumerate, def, lora_loop_body, print, fstring,
    assign, call_def, test_inference, add_str, mul_str, call_str, as_str, call,
    attr, var, item, list_, dict_, str, chars, bool_, int, prompts.
  exec_with ltac:(rewrite ?Hpipe).
  eexists. split; [reflexivity |]. cbn [trace].
  rewrite !app_nil_r, <- !app_assoc. reflexivity.
Qed.

Lemma inference_cell_without_pipe_witness :
  ns_get "pipe" (globals fresh_kernel) = None
  ∧ snd (lora_cell_inference quiet_world fresh_kernel) = Raise (NameError "pipe").
Proof.
  split; [reflexivity |].
  destruct (inference_cell_without_pipe quiet_world fresh_kernel eq_refl)
    as (st' & Hrun & _).
  rewrite Hrun. reflexivity.
Defined.

(** ** [test_inference] and [strip] *)

Lemma test_inference_run (w : World) (st : State) (pipe prompt : Val) :
  ns_get "pipe" (globals st) = Some pipe →
  is_lib pipe = true →
  snd (test_inference w prompt st)
  = Ok (VStr (strip (slice_from
                       (py_len (text w (VRes (length (trace st)))))
                       (text w (VItem (VItem (VRes (S (length (trace st)))) (VInt 0))
                                      (VStr (lit "generated_text"))))))).
Proof.
  intros Hpipe Hlib.
  unfold test_inference, call_str, as_str, call, attr, var, item, list_,
    dict_, str, bool_, int.
  exec_with ltac:(rewrite ?Hpipe, ?Hlib).
  rewrite length_app, Nat.add_1_r. reflexivity.
Qed.

Lemma lstrip_whitespace (s : pystr) :
  ∃ pre, s = pre ++ lstrip s ∧ Forall (λ c, isspace c = true) pre.
Proof.
  induction s as [| a s (pre & Heq & Hsp)]; simpl; [by exists [] |].
  destruct (isspace a) eqn:E.
  - exists (a :: pre). split; [simpl; by rewrite <- Heq | by constructor].
  - by exists [].
Qed.

(** [strip] returns a contiguous part of its argument and drops only
    whitespace on either side. *)
Lemma strip_whitespace (s : pystr) :
  ∃ pre post,
    s = pre ++ strip s ++ post
    ∧ Forall (λ c, isspace c = true) pre
    ∧ Forall (λ c, isspace c = true) post.
Proof.
  destruct (lstrip_whitespace (reverse s)) as (q & Hq & Hqsp).
  destruct (lstrip_whitespace (rstrip s)) as (pre & Hpre & Hpresp).
  exists pre, (reverse q). split_and!.
  - unfold strip. rewrite (assoc_L (++)), <- Hpre. unfold rstrip.
    rewrite <- reverse_app, <- Hq. by rewrite reverse_involutive.
  - exact Hpresp.
  - by apply Forall_reverse.
Qed.

(** X5: the response of [test_inference] is a contiguous part of the
    generated text: the generated text is its first [len(rendered prompt)]
    characters, then whitespace, then the response, then whitespace. *)
Theorem test_inference_response_within_generation
  (w : World) (st : State) (pipe prompt : Val) :
  ns_get "pipe" (globals st) = Some pipe →
  is_lib pipe = true →
  let formatted := text w (VRes (length (trace st))) in
  let generated :=
    text w (VItem (VItem (VRes (S (length (trace st)))) (VInt 0))
                  (VStr (lit "generated_text"))) in
  ∃ response pre post,
    snd (test_inference w prompt st) = Ok (VStr response)
    ∧ generated = take (py_len formatted) generated ++ pre ++ response ++ post
    ∧ Forall (λ c, isspace c = true) pre
    ∧ Forall (λ c, isspace c = true) post.
Proof.
  intros Hpipe Hlib formatted generated.
  destruct (strip_whitespace (slice_from (py_len formatted) generated))
    as (pre & post & Heq & Hpre & Hpost).
  eexists _, pre, post. split_and!.
  - apply (test_inference_run w st pipe prompt Hpipe Hlib).
  - fold formatted generated. rewrite <- Heq. unfold slice_from.
    by rewrite take_drop.
  - exact Hpre.
  - exact Hpost.
Qed.

Lemma test_inference_response_within_generation_witness :
  ns_get "pipe" (globals before_inference) = Some (VRes 40)
  ∧ ∃ pre post,
      snd (test_inference echo_world (VStr (lit "hi")) before_inference)
      = Ok (VStr (lit "hello"))
      ∧ lit "<user>hi  hello " = lit "<user>hi" ++ pre ++ lit "hello" ++ post
      ∧ Forall (λ c, isspace c = true) pre.
Proof.
  assert (Hpipe : ns_get "pipe" (globals before_inference) = Some (VRes 40))
    by (vm_compute; reflexivity).
  split; [exact Hpipe |].
  destruct (test_inference_response_within_generation echo_world before_inference
              (VRes 40) (VStr (lit "hi")) Hpipe eq_refl)
    as (r & pre & post & Hrun & Heq & Hpre & _).
  assert (Hr : r = lit "hello").
  { assert (Hrun' : snd (test_inference echo_world (VStr (lit "hi")) before_inference)
                    = Ok (VStr (lit "hello"))) by (vm_compute; reflexivity).
    rewrite Hrun' in Hrun. by injection Hrun. }
  subst r. exists pre, post. split_and!; [exact Hrun | exact Heq | exact Hpre].
Defined.

(** X6: when the pipeline's generated text is not longer than the
    rendered prompt, [test_inference] returns the empty string (the slice
    past the end is empty, no exception). *)
Theorem test_inference_short_generation
  (w : World) (st : State) (pipe prompt : Val) :
  ns_get "pipe" (globals st) = Some pipe →
  is_lib pipe = true →
  length (text w (VItem (VItem (VRes (S (length (trace st)))) (VInt 0))
                        (VStr (lit "generated_text"))))
  ≤ length (text w (VRes (length (trace st)))) →
  snd (test_inference w prompt st) = Ok (VStr []).
Proof.
  intros Hpipe Hlib Hshort.
  rewrite (test_inference_run w st pipe prompt Hpipe Hlib).
  unfold slice_from, py_len. rewrite drop_ge by exact Hshort. reflexivity.
Qed.

Lemma test_inference_short_generation_witness :
  ns_get "pipe" (globals before_inference_terse) = Some (VRes 39)
  ∧ snd (test_inference terse_world (VStr (lit "hi")) before_inference_terse)
    = Ok (VStr []).
Proof.
  assert (Hpipe : ns_get "pipe" (globals before_inference_terse) = Some (VRes 39))
    by (vm_compute; reflexivity).
  split; [exact Hpipe |].
  apply (test_inference_short_generation terse_world before_inference_terse
           (VRes 39) (VStr (lit "hi")) Hpipe eq_refl).
  vm_compute. lia.
Defined.

(** ** Freeing the memory *)

(** X7: the cell [del model; del trainer; torch.cuda.empty_cache()]
    unbinds the two names, leaves every other name as it was and calls
    [empty_cache] once; run a second time it raises [NameError] for [model]
    before doing anything. *)
Theorem free_cell_runs_once (st : State) (t m tr : Val) :
  NoDup (names (globals st)) →
  ns_get "torch" (globals st) = Some t →
  is_lib t = true →
  ns_get "model" (globals st) = Some m →
  ns_get "trainer" (globals st) = Some tr →
  ∃ st',
    lora_cell_free st = (st', Ok tt)
    ∧ trace st' = trace st ++ [ECall (VAttr (VAttr t "cuda") "empty_cache") [] []]
    ∧ ns_get "model" (globals st') = None
    ∧ ns_get "trainer" (globals st') = None
    ∧ (∀ x, x ∉ ["model"; "trainer"] →
            ns_get x (globals st') = ns_get x (globals st))
    ∧ lora_cell_free st' = (st', Raise (NameError "model")).
Proof.
  intros Hnd Htorch Hlib Hm Htr.
  assert (Htr' : ns_get "trainer" (ns_del "model" (globals st)) = Some tr)
    by (by rewrite ns_get_del_ne).
  assert (Htorch' : ns_get "torch" (ns_del "trainer" (ns_del "model" (globals st)))
                    = Some t) by (by rewrite !ns_get_del_ne).
  assert (Hgone : ns_get "model" (ns_del "trainer" (ns_del "model" (globals st)))
                  = None).
  { rewrite ns_get_del_ne by done. by apply ns_get_del_eq. }
  eexists. split_and!.
  - unfold lora_cell_free, del, expr, call, attr, var.
    exec_with ltac:(rewrite ?Hm, ?Htr', ?Htorch', ?Hlib). reflexivity.
  - reflexivity.
  - exact Hgone.
  - cbn [globals]. apply ns_get_del_eq. by apply ns_del_NoDup.
  - intros x Hx. cbn [globals].
    apply not_elem_of_cons in Hx as [Hx1 Hx].
    apply not_elem_of_cons in Hx as [Hx2 _].
    rewrite !ns_get_del_ne by done. reflexivity.
  - unfold lora_cell_free, del, expr, call, attr, var.
    exec_with ltac:(rewrite ?Hgone). reflexivity.
Qed.

Lemma free_cell_runs_once_witness :
  ns_get "model" (globals after_merge) = Some (VRes 31)
  ∧ ∃ st',
      lora_cell_free after_merge = (st', Ok tt)
      ∧ lora_cell_free st' = (st', Raise (NameError "model")).
Proof.
  assert (Hnd : NoDup (names (globals after_merge)))
    by (apply (bool_decide_unpack _); vm_compute; exact I).
  assert (Hm : ns_get "model" (globals after_merge) = Some (VRes 31))
    by (vm_compute; reflexivity).
  split; [exact Hm |].
  destruct (free_cell_runs_once after_merge (VLib "torch" "") (VRes 31) (VRes 26)
              Hnd ltac:(vm_compute; reflexivity) eq_refl Hm
              ltac:(vm_compute; reflexivity))
    as (st' & Hrun & _ & _ & _ & _ & Hagain).
  exists st'. split; [exact Hrun | exact Hagain].
Defined.

(** ** Training and saving in the turtle notebook *)

(** X8: in a kernel where [trainer] is a library object and
    [finetune_name] is a string, the turtle notebook's training cell calls
    [trainer.train()] and then [trainer.save_model] with the path
    ["./" + finetune_name], and changes no variable. *)
Theorem turtle_train_then_save (w : World) (st : State) (t : Val) (name : pystr) :
  ns_get "trainer" (globals st) = Some t →
  is_lib t = true →
  ns_get "finetune_name" (globals st) = Some (VStr name) →
  turtle_cell_train w st
  = ({| globals := globals st; wandb_config := wandb_config st;
        trace := trace st ++
                 [ ECall (VAttr t "train") [] [];
                   ECall (VAttr t "save_model") [VStr (lit "./" ++ name)] [] ] |},
     Ok tt).
Proof.
  intros Ht Hlib Hname.
  unfold turtle_cell_train, expr, fstring, call, attr, var, str.
  exec_with ltac:(rewrite ?Ht, ?Hlib, ?Hname).
  rewrite app_nil_r, <- app_assoc. reflexivity.
Qed.

Lemma turtle_train_then_save_witness :
  ns_get "trainer" (globals turtle_trainer_built) = Some (VRes 22)
  ∧ trace (fst (turtle_cell_train quiet_world turtle_trainer_built))
    = trace turtle_trainer_built ++
      [ ECall (VAttr (VRes 22) "train") [] [];
        ECall (VAttr (VRes 22) "save_model") [VStr (lit "./SmolLM2-FT-Smoltalk")] [] ].
Proof.
  assert (Ht : ns_get "trainer" (globals turtle_trainer_built) = Some (VRes 22))
    by (vm_compute; reflexivity).
  split; [exact Ht |].
  rewrite (turtle_train_then_save quiet_world turtle_trainer_built (VRes 22)
             (lit "SmolLM2-FT-Smoltalk") Ht eq_refl ltac:(vm_compute; reflexivity)).
  reflexivity.
Defined.

(** ** What the runs use and what they leave unused *)

(** X9: of the two adapter models the LoRA notebook loads with
    [AutoPeftModelForCausalLM.from_pretrained], the first is used once (by
    [merge_and_unload]) and the second, loaded in the pipeline cell and left
    bound to [model], is used by no call: the pipeline is given the merged
    model. *)
Theorem reloaded_adapter_is_unused (w : World) :
  uses (events lora_notebook w)
    <$> positions (calls_attr_of "peft" "AutoPeftModelForCausalLM" "from_pretrained")
                  (events lora_notebook w)
  = [1; 0]
  ∧ (λ e, kwarg "model" (kwargs_of e))
      <$> filter (λ e, calls_name "transformers" "pipeline" e = true)
                 (events lora_notebook w)
    = (λ n, Some (VRes n))
        <$> positions (calls_method "merge_and_unload") (events lora_notebook w)
  ∧ final_global lora_notebook w "model"
    = VRes <$> last (positions (calls_attr_of "peft" "AutoPeftModelForCausalLM"
                                              "from_pretrained")
                               (events lora_notebook w)).
Proof. run_world w. Qed.

(** X10: the LoRA notebook records [num_train_epochs = 3] in the
    [wandb.init] config but configures the trainer with
    [num_train_epochs = 2]; the learning rate is [2e-4] in both places. *)
Theorem logged_epochs_differ_from_trained (w : World) :
  wandb_logged (events lora_notebook w) "num_train_epochs" = [Some (VInt 3)]
  ∧ (λ e, trainer_args_of (events lora_notebook w) e ≫= kwarg "num_train_epochs")
      <$> trainers (events lora_notebook w)
    = [Some (VInt 2)]
  ∧ wandb_logged (events lora_notebook w) "learning_rate" = [Some (VFloat 2 (-4))]
  ∧ (λ e, trainer_args_of (events lora_notebook w) e ≫= kwarg "learning_rate")
      <$> trainers (events lora_notebook w)
    = [Some (VFloat 2 (-4))].
Proof. run_world w. Qed.


(** X12: in the turtle notebook both generations, before and after
    [trainer.train()], are made with the very object passed to the trainer
    as [model]; no model is loaded after training. *)
Theorem turtle_sample_after_training_uses_trained_object (w : World) :
  ∃ m : Val,
    (λ e, kwarg "model" (kwargs_of e))
      <$> trainers (events sft_finetuning_example_turtle w) = [Some m]
    ∧ method_receivers "generate" (events sft_finetuning_example_turtle w) = [m; m]
    ∧ method_calls ["from_pretrained"; "generate"; "train"]
                   (events sft_finetuning_example_turtle w)
      = ["from_pretrained"; "from_pretrained"; "generate"; "train"; "generate"].
Proof.
  destruct w as [[] [] tx];
    [ exists (VItem (VRes 10) (VInt 0)) | exists (VItem (VRes 10) (VInt 0))
    | exists (VItem (VRes 11) (VInt 0)) | exists (VItem (VRes 11) (VInt 0)) ];
    split_and?; by_vm.
Qed.

(** ** The generation cell *)

(** X13: in any kernel where [tokenizer] and [model] are library objects
    and [device] is bound, the generation cell sends the fixed prompt
    [Write a haiku about programming] through the chat template, the
    tokenizer, [generate] and [decode], prints the label and the decoded
    text and nothing else, and changes no variable other than [prompt],
    [messages], [formatted_prompt], [inputs] and [outputs]. *)
Theorem generation_cell_effect
  (w : World) (label : string) (st : State) (tok m d : Val) :
  ns_get "tokenizer" (globals st) = Some tok →
  is_lib tok = true →
  ns_get "model" (globals st) = Some m →
  is_lib m = true →
  ns_get "device" (globals st) = Some d →
  let n := length (trace st) in
  ∃ st',
    cell_generate w label st = (st', Ok tt)
    ∧ trace st'
      = trace st ++
        [ ECall (VAttr tok "apply_chat_template")
                [VList [VDict [(lit "role", VStr (lit "user"));
                               (lit "content",
                                VStr (lit "Write a haiku about programming"))]]]
                [("tokenize", VBool false)];
          ECall tok [VStr (text w (VRes n))] [("return_tensors", VStr (lit "pt"))];
          ECall (VAttr (VRes (n + 1)) "to") [d] [];
          ECall (VAttr m "generate") []
                [("**", VRes (n + 2)); ("max_new_tokens", VInt 100)];
          EPrint (lit label);
          ECall (VAttr tok "decode") [VItem (VRes (n + 3)) (VInt 0)]
                [("skip_special_tokens", VBool true)];
          EPrint (text w (VRes (n + 5))) ]
    ∧ ∀ x, x ∉ ["prompt"; "messages"; "formatted_prompt"; "inputs"; "outputs"] →
           ns_get x (globals st') = ns_get x (globals st).
Proof.
  intros Htok Hltok Hm Hlm Hd n.
  unfold cell_generate, print, assign, call_str, as_str, call, attr, var, item,
    list_, dict_, str, bool_, int.
  exec_with ltac:(rewrite ?Htok, ?Hltok, ?Hm, ?Hlm, ?Hd).
  eexists. split_and!; [reflexivity | |].
  - cbn [trace]. rewrite !length_app, <- !app_assoc. cbn [length].
    rewrite <- !Nat.add_assoc. cbn [Nat.add]. reflexivity.
  - intros x Hx. cbn [globals]. rewrite !ns_get_set.
    repeat (apply not_elem_of_cons in Hx as [? Hx]).
    repeat (destruct (String.eqb _ x) eqn:E;
            [apply String.eqb_eq in E; congruence | clear E]).
    reflexivity.
Qed.

Lemma generation_cell_effect_witness :
  ns_get "model" (globals turtle_trainer_built) = Some (VItem (VRes 11) (VInt 0))
  ∧ ∃ st',
      cell_generate quiet_world "After training:" turtle_trainer_built = (st', Ok tt)
      ∧ length (trace st') = length (trace turtle_trainer_built) + 7.
Proof.
  assert (Hm : ns_get "model" (globals turtle_trainer_built)
               = Some (VItem (VRes 11) (VInt 0))) by (vm_compute; reflexivity).
  split; [exact Hm |].
  destruct (generation_cell_effect quiet_world "After training:" turtle_trainer_built
              (VItem (VRes 11) (VInt 1)) (VItem (VRes 11) (VInt 0)) (VStr (lit "cpu"))
              ltac:(vm_compute; reflexivity) eq_refl Hm eq_refl
              ltac:(vm_compute; reflexivity))
    as (st' & Hrun & Htrace & _).
  exists st'. split; [exact Hrun |]. rewrite Htrace, length_app. reflexivity.
Defined.

(** ** The calls of the merge step *)

(** What [merge_and_unload] does to the weights and what [save_pretrained]
    writes is decided inside [peft] and [transformers]; the notebook's part
    is the calls it makes and what it passes to them. *)

